(** * High-knee repetition counter: a shallow embedding of
      [src/custom_nodes/dabble/high_knee.py] and its properties.

    The node receives, once per video frame, the pose keypoints of one
    subject and counts high-knee repetitions per leg.  The embedding keeps
    the shape of the Python code: module constants, the keypoint coordinate
    helper, [draw_text], the [Node] object with its working variables and
    the per-frame method [run].

    Modelling choices.
    - Python [float]s (and the numpy scalars the pipeline hands over, which
      embed exactly into binary64) are IEEE-754 binary64 values, taken from
      the Standard Library's [SpecFloat]: comparisons are [SFltb]/[SFleb],
      the product is [SFmul 53 1024].
    - Python [int]s are unbounded: [Z].
    - Exceptions are values of [exn]; a computation that may raise and that
      may mutate [self] and the frame buffer lives in the monad [M], which
      keeps the mutations made before the exception was raised.
    - [cv2.putText] is the host's drawing primitive; the frame buffer is
      modelled by the list of texts put on it, in drawing order, and putting
      a text is taken to succeed at any coordinates. *)

From Stdlib Require Import ZArith List String Bool Lia.
From Stdlib Require Import SpecFloat DecimalString DecimalPos DecimalZ.
Import ListNotations.

Local Open Scope Z_scope.

(** ** Exceptions and results *)

Inductive exn : Type :=
| IndexError
| ValueError
| OverflowError.

Inductive result (A : Type) : Type :=
| Ok (a : A)
| Raise (e : exn).

Arguments Ok {A} a.
Arguments Raise {A} e.

(** ** Python floats *)

Definition float : Type := spec_float.

Module PyFloat.

Definition prec : Z := 53.
Definition emax : Z := 1024.

(** [a < b] and [a >= b] on floats; both are false as soon as one operand
    is a NaN. *)
Definition lt (a b : float) : bool := SFltb a b.
Definition ge (a b : float) : bool := SFleb b a.

(** [a * b] on floats: correctly rounded, overflows to an infinity. *)
Definition mul (a b : float) : float := SFmul prec emax a b.

(** The implicit conversion of an [int] operand in [float * int]: the
    nearest float, [OverflowError] when the integer is beyond the largest
    finite float. *)
Definition of_int (z : Z) : result float :=
  match binary_normalize prec emax z 0 false with
  | S754_infinity _ => Raise OverflowError
  | f => Ok f
  end.

(** Magnitude of the integer part of [m * 2^e]. *)
Definition trunc_mag (m : positive) (e : Z) : Z :=
  if 0 <=? e then Z.pos m * 2 ^ e else Z.pos m / 2 ^ (- e).

(** [int(f)]: truncation towards zero; a NaN raises [ValueError], an
    infinity raises [OverflowError]. *)
Definition to_int (f : float) : result Z :=
  match f with
  | S754_nan => Raise ValueError
  | S754_infinity _ => Raise OverflowError
  | S754_zero _ => Ok 0
  | S754_finite s m e => Ok (if s then - trunc_mag m e else trunc_mag m e)
  end.

Definition is_finite (f : float) : bool :=
  match f with
  | S754_zero _ | S754_finite _ _ _ => true
  | _ => false
  end.

End PyFloat.

(** [str(z)] for an [int], as an f-string renders it. *)
Definition str_int (z : Z) : string := NilZero.string_of_int (Z.to_int z).

(** ** Module constants *)

Definition color : Type := (Z * Z * Z)%type.

Definition WHITE : color := (255, 255, 255).
Definition YELLOW : color := (0, 255, 255).

(** [0.3]: the binary64 number nearest to three tenths,
    [0x1.3333333333333p-2]. *)
Definition THRESHOLD : float := S754_finite false 5404319552844595 (-54).

Definition KP_RIGHT_SHOULDER : nat := 6.
Definition KP_RIGHT_WRIST : nat := 10.
Definition KP_LEFT_HIP : nat := 11.
Definition KP_RIGHT_HIP : nat := 12.
Definition KP_LEFT_KNEE : nat := 13.
Definition KP_RIGHT_KNEE : nat := 14.

(** ** Coordinate helper *)

(** A keypoint is a row [[x, y]] of relative coordinates. *)
Definition keypoint : Type := (float * float)%type.

Definition result_bind {A B} (r : result A) (k : A -> result B) : result B :=
  match r with
  | Ok a => k a
  | Raise e => Raise e
  end.

(** [map_keypoint_to_image_coords(keypoint, image_size)]:
    [x *= width; y *= height; return int(x), int(y)]. *)
Definition map_keypoint_to_image_coords
    (kp : keypoint) (image_size : Z * Z) : result (Z * Z) :=
  let '(width, height) := image_size in
  let '(x, y) := kp in
  result_bind (PyFloat.of_int width) (fun w =>
  let x := PyFloat.mul x w in
  result_bind (PyFloat.of_int height) (fun h =>
  let y := PyFloat.mul y h in
  result_bind (PyFloat.to_int x) (fun ix =>
  result_bind (PyFloat.to_int y) (fun iy =>
  Ok (ix, iy))))).

(** A bounding box is a list [[x1, y1, x2, y2]] of relative coordinates. *)
Definition bbox : Type := (float * float * float * float)%type.

(** [map_bbox_to_image_coords(bbox, image_size)]:
    [x1 *= width; x2 *= width; y1 *= height; y2 *= height;
     return int(x1), int(y1), int(x2), int(y2)]. *)
Definition map_bbox_to_image_coords
    (b : bbox) (image_size : Z * Z) : result (Z * Z * Z * Z) :=
  let '(width, height) := image_size in
  let '(x1, y1, x2, y2) := b in
  result_bind (PyFloat.of_int width) (fun w1 =>
  let x1 := PyFloat.mul x1 w1 in
  result_bind (PyFloat.of_int width) (fun w2 =>
  let x2 := PyFloat.mul x2 w2 in
  result_bind (PyFloat.of_int height) (fun h1 =>
  let y1 := PyFloat.mul y1 h1 in
  result_bind (PyFloat.of_int height) (fun h2 =>
  let y2 := PyFloat.mul y2 h2 in
  result_bind (PyFloat.to_int x1) (fun ix1 =>
  result_bind (PyFloat.to_int y1) (fun iy1 =>
  result_bind (PyFloat.to_int x2) (fun ix2 =>
  result_bind (PyFloat.to_int y2) (fun iy2 =>
  Ok (ix1, iy1, ix2, iy2))))))))).

(** ** The frame buffer and the node object *)

Record Text : Type := mkText {
  org : Z * Z;
  text : string;
  text_color : color
}.

Record Img : Type := mkImg {
  shape : Z * Z;          (* (height, width) *)
  drawn : list Text       (* texts put on the frame, oldest first *)
}.

Record Node : Type := mkNode {
  right_wrist : option keypoint;
  right_knee : option keypoint;
  left_knee : option keypoint;
  r_up : string;
  l_up : string;
  direction : option string;
  r_num_direction_changes : Z;
  r_num_waves : Z;
  l_num_direction_changes : Z;
  l_num_waves : Z
}.

(** [Node.__init__] *)
Definition __init__ : Node :=
  {| right_wrist := None;
     right_knee := None;
     left_knee := None;
     r_up := "down";
     l_up := "down";
     direction := None;
     r_num_direction_changes := 0;
     r_num_waves := 0;
     l_num_direction_changes := 0;
     l_num_waves := 0 |}.

(** Attribute assignments [self.f = v].  [self.right_knee] and
    [self.left_knee] receive a row of the host's keypoint array; the field
    holds that row as it reads when it is stored.  The counting never reads
    it back, and the properties below use only whether it is set. *)
Definition set_right_knee (v : option keypoint) (s : Node) : Node :=
  mkNode (right_wrist s) v (left_knee s) (r_up s) (l_up s) (direction s)
    (r_num_direction_changes s) (r_num_waves s)
    (l_num_direction_changes s) (l_num_waves s).
Definition set_left_knee (v : option keypoint) (s : Node) : Node :=
  mkNode (right_wrist s) (right_knee s) v (r_up s) (l_up s) (direction s)
    (r_num_direction_changes s) (r_num_waves s)
    (l_num_direction_changes s) (l_num_waves s).
Definition set_r_up (v : string) (s : Node) : Node :=
  mkNode (right_wrist s) (right_knee s) (left_knee s) v (l_up s) (direction s)
    (r_num_direction_changes s) (r_num_waves s)
    (l_num_direction_changes s) (l_num_waves s).
Definition set_l_up (v : string) (s : Node) : Node :=
  mkNode (right_wrist s) (right_knee s) (left_knee s) (r_up s) v (direction s)
    (r_num_direction_changes s) (r_num_waves s)
    (l_num_direction_changes s) (l_num_waves s).
Definition set_r_num_direction_changes (v : Z) (s : Node) : Node :=
  mkNode (right_wrist s) (right_knee s) (left_knee s) (r_up s) (l_up s)
    (direction s) v (r_num_waves s)
    (l_num_direction_changes s) (l_num_waves s).
Definition set_r_num_waves (v : Z) (s : Node) : Node :=
  mkNode (right_wrist s) (right_knee s) (left_knee s) (r_up s) (l_up s)
    (direction s) (r_num_direction_changes s) v
    (l_num_direction_changes s) (l_num_waves s).
Definition set_l_num_direction_changes (v : Z) (s : Node) : Node :=
  mkNode (right_wrist s) (right_knee s) (left_knee s) (r_up s) (l_up s)
    (direction s) (r_num_direction_changes s) (r_num_waves s)
    v (l_num_waves s).
Definition set_l_num_waves (v : Z) (s : Node) : Node :=
  mkNode (right_wrist s) (right_knee s) (left_knee s) (r_up s) (l_up s)
    (direction s) (r_num_direction_changes s) (r_num_waves s)
    (l_num_direction_changes s) v.

(** ** The monad of [run]: mutable [self] and frame buffer, exceptions *)

Record World : Type := mkWorld {
  self : Node;
  img : Img
}.

Definition M (A : Type) : Type := World -> World * result A.

Definition ret {A} (a : A) : M A := fun w => (w, Ok a).

Definition bind {A B} (m : M A) (k : A -> M B) : M B :=
  fun w =>
    match m w with
    | (w', Ok a) => k a w'
    | (w', Raise e) => (w', Raise e)
    end.

Definition lift {A} (r : result A) : M A := fun w => (w, r).

Definition get_self : M Node := fun w => (w, Ok (self w)).

Definition modify_self (f : Node -> Node) : M unit :=
  fun w => (mkWorld (f (self w)) (img w), Ok tt).

Declare Scope py_scope.
Delimit Scope py_scope with py.
Notation "x <- m ;; k" := (bind m (fun x => k))
  (at level 61, m at next level, right associativity) : py_scope.
Notation "' pat <- m ;; k" := (bind m (fun x => match x with pat => k end))
  (at level 61, pat pattern, m at next level, right associativity) : py_scope.
Notation "m ;; k" := (bind m (fun _ => k))
  (at level 61, right associativity) : py_scope.

(** [draw_text(img, x, y, text_str, color_code)].  The host's
    [cv2.putText] is taken to succeed; it rejects a position outside the
    range of a C [int], so a call that returns here is a call in which the
    code of this file raises nothing. *)
Definition draw_text (x y : Z) (text_str : string) (color_code : color)
  : M unit :=
  fun w =>
    (mkWorld (self w)
       (mkImg (shape (img w))
          (drawn (img w) ++ [mkText (x, y) text_str color_code])),
     Ok tt).

(** ** The per-frame method *)

Record Inputs : Type := mkInputs {
  in_img : Img;
  keypoints : list (list keypoint);
  keypoint_scores : list (list float)
}.

(** The local variables [right_knee], [left_knee], [right_hip], [left_hip]
    of [run]. *)
Record Locals : Type := mkLocals {
  loc_right_knee : option keypoint;
  loc_left_knee : option keypoint;
  loc_right_hip : option keypoint;
  loc_left_hip : option keypoint
}.

Definition no_locals : Locals := mkLocals None None None None.

(** [seq[i]], raising [IndexError] out of range. *)
Definition index {A} (l : list A) (i : nat) : result A :=
  match nth_error l i with
  | Some a => Ok a
  | None => Raise IndexError
  end.

Local Open Scope py_scope.

(** The assignment made for keypoint number [i] once it passed the
    threshold, with the colour of its annotation. *)
Definition assign (i : nat) (kp : keypoint) (loc : Locals)
  : Locals * color :=
  if Nat.eqb i KP_LEFT_HIP then
    (mkLocals (loc_right_knee loc) (loc_left_knee loc) (loc_right_hip loc)
       (Some kp), YELLOW)
  else if Nat.eqb i KP_RIGHT_HIP then
    (mkLocals (loc_right_knee loc) (loc_left_knee loc) (Some kp)
       (loc_left_hip loc), YELLOW)
  else if Nat.eqb i KP_RIGHT_KNEE then
    (mkLocals (Some kp) (loc_left_knee loc) (loc_right_hip loc)
       (loc_left_hip loc), YELLOW)
  else if Nat.eqb i KP_LEFT_KNEE then
    (mkLocals (loc_right_knee loc) (Some kp) (loc_right_hip loc)
       (loc_left_hip loc), YELLOW)
  else (loc, WHITE).

(** One iteration of [for i, keypoints in enumerate(the_keypoints)]. *)
Definition loop_body (img_size : Z * Z) (the_keypoint_scores : list float)
    (i : nat) (kp : keypoint) (loc : Locals) : M Locals :=
  keypoint_score <- lift (index the_keypoint_scores i) ;;
  if PyFloat.ge keypoint_score THRESHOLD then
    '(x, y) <- lift (map_keypoint_to_image_coords kp img_size) ;;
    let x_y_str := ("(" ++ str_int x ++ ", " ++ str_int y ++ ")")%string in
    let '(loc', the_color) := assign i kp loc in
    draw_text x y x_y_str the_color ;;
    ret loc'
  else ret loc.

Fixpoint for_enumerate (img_size : Z * Z) (the_keypoint_scores : list float)
    (i : nat) (the_keypoints : list keypoint) (loc : Locals) : M Locals :=
  match the_keypoints with
  | [] => ret loc
  | kp :: rest =>
      loc' <- loop_body img_size the_keypoint_scores i kp loc ;;
      for_enumerate img_size the_keypoint_scores (S i) rest loc'
  end.

(** The position of a knee against its hip: the smaller ordinate is the
    higher point. *)
Definition position (knee hip : keypoint) : string :=
  if PyFloat.lt (snd knee) (snd hip) then "up" else "down".

(** Lines 176-187: the right leg. *)
Definition update_right (right_knee right_hip : keypoint) (s : Node) : Node :=
  let r_up' := position right_knee right_hip in
  let s := if String.eqb r_up' (r_up s) then s
           else set_r_num_direction_changes (r_num_direction_changes s + 1) s in
  let s := if 2 <=? r_num_direction_changes s
           then set_r_num_direction_changes 0
                  (set_r_num_waves (r_num_waves s + 1) s)
           else s in
  set_r_up r_up' s.

(** Lines 189-200: the left leg. *)
Definition update_left (left_knee left_hip : keypoint) (s : Node) : Node :=
  let l_up' := position left_knee left_hip in
  let s := if String.eqb l_up' (l_up s) then s
           else set_l_num_direction_changes (l_num_direction_changes s + 1) s in
  let s := if 2 <=? l_num_direction_changes s
           then set_l_num_direction_changes 0
                  (set_l_num_waves (l_num_waves s + 1) s)
           else s in
  set_l_up l_up' s.

(** Lines 169-200: the body of the guard on the four tracked keypoints. *)
Definition count_knees (rk rh lk lh : keypoint) (s : Node) : Node :=
  let s := match right_knee s with
           | None => set_right_knee (Some rk) s
           | Some _ => s
           end in
  let s := match left_knee s with
           | None => set_left_knee (Some lk) s
           | Some _ => s
           end in
  update_left lk lh (update_right rk rh s).

Definition wave_str (s : Node) : string :=
  ("high knees = " ++ str_int (l_num_waves s + r_num_waves s))%string.

Definition draw_total : M unit :=
  s <- get_self ;;
  draw_text 20 30 (wave_str s) YELLOW.

Definition run_body (inputs : Inputs) : M unit :=
  w <- (fun w => (w, Ok w)) ;;
  let img_size := (snd (shape (img w)), fst (shape (img w))) in
  match keypoints inputs, keypoint_scores inputs with
  | the_keypoints :: _, the_keypoint_scores :: _ =>
      loc <- for_enumerate img_size the_keypoint_scores 0 the_keypoints
               no_locals ;;
      match loc_left_hip loc, loc_right_hip loc,
            loc_left_knee loc, loc_right_knee loc with
      | Some lh, Some rh, Some lk, Some rk =>
          modify_self (count_knees rk rh lk lh)
      | _, _, _, _ => ret tt
      end ;;
      draw_total
  | _, _ => draw_total
  end.

(** [Node.run(inputs)]: the node and the frame buffer after the call, and
    whether the call returned or raised. *)
Definition run (s : Node) (inputs : Inputs) : World * result unit :=
  run_body inputs (mkWorld s (in_img inputs)).

(** The host pipeline calls [run] once per frame, in order; an exception is
    fatal and ends the stream.  [run_frames] gives the node as the stream
    leaves it. *)
Fixpoint run_frames (s : Node) (frames : list Inputs) : Node * result unit :=
  match frames with
  | [] => (s, Ok tt)
  | f :: rest =>
      match run s f with
      | (w, Ok _) => run_frames (self w) rest
      | (w, Raise e) => (self w, Raise e)
      end
  end.

(** ** Vocabulary of the specification *)

(** What the first subject of a frame offers for keypoint number [i]. *)
Definition point (inputs : Inputs) (i : nat) : option keypoint :=
  match keypoints inputs with
  | the_keypoints :: _ => nth_error the_keypoints i
  | [] => None
  end.

Definition confidence (inputs : Inputs) (i : nat) : option float :=
  match keypoint_scores inputs with
  | the_keypoint_scores :: _ => nth_error the_keypoint_scores i
  | [] => None
  end.

(** A keypoint is available when it is there with a confidence of at least
    the threshold. *)
Definition available (inputs : Inputs) (i : nat) : option keypoint :=
  match point inputs i, confidence inputs i with
  | Some kp, Some c => if PyFloat.ge c THRESHOLD then Some kp else None
  | _, _ => None
  end.

Inductive side : Type := Left | Right.

Definition hip_index (sd : side) : nat :=
  match sd with Left => KP_LEFT_HIP | Right => KP_RIGHT_HIP end.

Definition knee_index (sd : side) : nat :=
  match sd with Left => KP_LEFT_KNEE | Right => KP_RIGHT_KNEE end.

Definition other (sd : side) : side :=
  match sd with Left => Right | Right => Left end.

(** The specification's limb state machine (section 4.3), written from its
    five steps; the node's two legs are compared with it below. *)
Module Spec.

Record LimbState : Type := mkLimb {
  lastPosition : string;
  transitionCount : Z;
  repCount : Z
}.

Definition update (hip knee : keypoint) (st : LimbState) : LimbState :=
  let position := if PyFloat.lt (snd knee) (snd hip) then "up"%string
                  else "down"%string in
  let tc := if String.eqb position (lastPosition st)
            then transitionCount st
            else transitionCount st + 1 in
  if 2 <=? tc
  then mkLimb position 0 (repCount st + 1)
  else mkLimb position tc (repCount st).

Definition total (left right : LimbState) : Z :=
  repCount left + repCount right.

End Spec.

(** The leg [sd] of the node, seen as a limb state. *)
Definition limb (sd : side) (s : Node) : Spec.LimbState :=
  match sd with
  | Left => Spec.mkLimb (l_up s) (l_num_direction_changes s) (l_num_waves s)
  | Right => Spec.mkLimb (r_up s) (r_num_direction_changes s) (r_num_waves s)
  end.

(** The local variable of [run] that keypoint number [j] is stored in. *)
Definition local_of (j : nat) (loc : Locals) : option keypoint :=
  if Nat.eqb j KP_LEFT_HIP then loc_left_hip loc
  else if Nat.eqb j KP_RIGHT_HIP then loc_right_hip loc
  else if Nat.eqb j KP_RIGHT_KNEE then loc_right_knee loc
  else if Nat.eqb j KP_LEFT_KNEE then loc_left_knee loc
  else None.

Definition tracked (j : nat) : bool :=
  Nat.eqb j KP_LEFT_HIP || Nat.eqb j KP_RIGHT_HIP
  || Nat.eqb j KP_RIGHT_KNEE || Nat.eqb j KP_LEFT_KNEE.

(** Both transition counters are 0 or 1. *)
Definition counters_low (s : Node) : Prop :=
  (r_num_direction_changes s = 0 \/ r_num_direction_changes s = 1) /\
  (l_num_direction_changes s = 0 \/ l_num_direction_changes s = 1).

(** The text that shows the total. *)
Definition total_text (total : Z) : Text :=
  mkText (20, 30) ("high knees = " ++ str_int total)%string YELLOW.


(** Two frames that carry the same confidences and the same ordinates. *)
Definition same_scores_and_y (f1 f2 : Inputs) : Prop :=
  keypoint_scores f1 = keypoint_scores f2 /\
  map (map snd) (keypoints f1) = map (map snd) (keypoints f2).

(** The node after the guard on the four locals. *)
Definition guarded_step (loc : Locals) (s : Node) : Node :=
  match loc_left_hip loc, loc_right_hip loc,
        loc_left_knee loc, loc_right_knee loc with
  | Some lh, Some rh, Some lk, Some rk => count_knees rk rh lk lh s
  | _, _, _, _ => s
  end.

(** The frame buffer with the total of node [s] put on it. *)
Definition with_total (s : Node) (im : Img) : Img :=
  mkImg (shape im) (drawn im ++ [total_text (l_num_waves s + r_num_waves s)]).

(** The four tracked keypoints of a frame are all available. *)
Definition all_available (f : Inputs) : bool :=
  match available f KP_LEFT_HIP, available f KP_RIGHT_HIP,
        available f KP_LEFT_KNEE, available f KP_RIGHT_KNEE with
  | Some _, Some _, Some _, Some _ => true
  | _, _, _, _ => false
  end.

(** The counting step runs on frame [f], called on node [s]: the call
    returns and the guard on the four tracked keypoints passes. *)
Definition update_runs (s : Node) (f : Inputs) : Prop :=
  snd (run s f) = Ok tt /\ all_available f = true.

(** A float that is not below zero: a zero, a NaN, or the sign bit clear. *)
Definition not_negative (f : float) : Prop :=
  match f with
  | S754_zero _ | S754_nan => True
  | S754_finite s _ _ | S754_infinity s => s = false
  end.

(** The node with its two legs exchanged. *)
Definition mirror (s : Node) : Node :=
  mkNode (right_wrist s) (left_knee s) (right_knee s) (l_up s) (r_up s)
    (direction s) (l_num_direction_changes s) (l_num_waves s)
    (r_num_direction_changes s) (r_num_waves s).

(** A leg at rest (down, no pending transition) or raised (up, one pending
    transition). *)
Definition in_phase (st : Spec.LimbState) : Prop :=
  (Spec.lastPosition st = "down"%string /\ Spec.transitionCount st = 0) \/
  (Spec.lastPosition st = "up"%string /\ Spec.transitionCount st = 1).

(** The annotation of a keypoint: its own pixel position, written out, in
    one of the two colours. *)
Definition well_labelled (t : Text) : Prop :=
  text t = ("(" ++ str_int (fst (org t)) ++ ", "
            ++ str_int (snd (org t)) ++ ")")%string /\
  (text_color t = WHITE \/ text_color t = YELLOW).

(** How many of the scores met by the loop reach the threshold. *)
Definition confident_count (the_keypoints : list keypoint)
    (the_keypoint_scores : list float) : nat :=
  List.length (filter (fun c => PyFloat.ge c THRESHOLD)
                 (firstn (List.length the_keypoints) the_keypoint_scores)).

(** The loop over the first subject goes through: every keypoint has a
    score, and every keypoint whose score reaches the threshold has pixel
    coordinates. *)
Definition convertible (f : Inputs) : Prop :=
  forall i kp,
    point f i = Some kp ->
    exists c,
      confidence f i = Some c /\
      (PyFloat.ge c THRESHOLD = true ->
       exists p,
         map_keypoint_to_image_coords kp
           (snd (shape (in_img f)), fst (shape (in_img f))) = Ok p).

(** ** Sample data *)

Module Sample.

Definition zero : float := S754_zero false.
Definition quarter : float := S754_finite false 4503599627370496 (-54).
Definition half : float := S754_finite false 4503599627370496 (-53).
Definition three_quarters : float := S754_finite false 6755399441055744 (-53).
Definition one : float := S754_finite false 4503599627370496 (-52).
(** [1e308] *)
Definition huge : float := S754_finite false 5010420900022432 971.
Definition nan : float := S754_nan.

Definition three : float := S754_finite false 6755399441055744 (-51).

Definition blank : Img := mkImg (480, 640) [].

(** A 17-keypoint pose: the nose at abscissa [nose_x], the four tracked
    keypoints as given, everything else in the middle of the frame with
    full confidence. *)
Definition pose (nose_x : float) (lh rh lk rk : keypoint)
    (c_lh c_rh c_lk c_rk : float) : Inputs :=
  let g := (half, half) in
  mkInputs blank
    [[(nose_x, half); g; g; g; g; g; g; g; g; g; g; lh; rh; lk; rk; g; g]]
    [[one; one; one; one; one; one; one; one; one; one; one;
      c_lh; c_rh; c_lk; c_rk; one; one]].

Definition hip : keypoint := (half, half).
Definition knee_down : keypoint := (half, three_quarters).
Definition knee_up : keypoint := (half, quarter).

(** Both legs seen; the right knee as given, the left knee down. *)
Definition right_leg (rk : keypoint) : Inputs :=
  pose half hip hip knee_down rk one one one one.

(** Both legs seen; the left knee as given, the right knee down. *)
Definition left_leg (lk : keypoint) : Inputs :=
  pose half hip hip lk knee_down one one one one.

(** Only the right leg seen: the left hip and knee are below threshold. *)
Definition right_only (rk : keypoint) : Inputs :=
  pose half hip hip knee_down rk quarter one quarter one.

(** Both legs in view and the right knee up, but the right knee below
    threshold. *)
Definition right_knee_unsure : Inputs :=
  pose half hip hip knee_down knee_up one one one quarter.

(** Both legs seen and the right knee up, with the nose far off frame. *)
Definition nose_off_frame : Inputs :=
  pose huge hip hip knee_down knee_up one one one one.

(** Both legs seen and the right knee up, with the nose at the left edge. *)
Definition nose_left : Inputs :=
  pose zero hip hip knee_down knee_up one one one one.

(** A pose with a score list two entries short. *)
Definition scores_short : Inputs :=
  mkInputs blank
    [[hip; hip; hip]]
    [[one]].

(** A pose of five keypoints, two of them below threshold. *)
Definition five_points : Inputs :=
  mkInputs blank
    [[hip; knee_up; hip; knee_down; hip]]
    [[one; quarter; one; zero; half]].

(** Both legs seen, the right knee with a NaN ordinate. *)
Definition knee_nan : keypoint := (half, nan).

(** The pose [five_points] with a second subject and surplus scores. *)
Definition five_points_crowded : Inputs :=
  mkInputs blank
    [[hip; knee_up; hip; knee_down; hip]; [knee_nan; hip]]
    [[one; quarter; one; zero; half; nan; one]; [zero]].

(** The raised knee at the left edge of the frame. *)
Definition knee_up_left : keypoint := (zero, quarter).

Definition nobody : Inputs := mkInputs blank [] [].

End Sample.

(** * Properties *)

(** ** Float comparisons *)

Lemma SFcompare_Lt_Gt (a b : float) :
  SFcompare a b = Some Lt -> SFcompare b a = Some Gt.
Proof.
  destruct a as [sa|sa| |sa ma ea], b as [sb|sb| |sb mb eb]; simpl;
    try discriminate; try (destruct sa; discriminate);
    try (destruct sb; discriminate);
    try (destruct sa, sb; (discriminate || reflexivity)).
  change (Pos.compare_cont Eq ma mb) with (Pos.compare ma mb).
  change (Pos.compare_cont Eq mb ma) with (Pos.compare mb ma).
  rewrite (Z.compare_antisym ea eb), (Pos.compare_antisym ma mb).
  destruct sa, sb, (ea ?= eb), (ma ?= mb)%positive; simpl;
    intros H; try discriminate H; reflexivity.
Qed.

(** [a < b] excludes [b < a] and [a >= b]. *)
Lemma lt_not_gt (a b : float) :
  PyFloat.lt a b = true -> PyFloat.lt b a = false.
Proof.
  unfold PyFloat.lt, SFltb. intros H.
  destruct (SFcompare a b) as [[]|] eqn:E; try discriminate.
  now rewrite (SFcompare_Lt_Gt _ _ E).
Qed.

Lemma lt_not_ge (a b : float) :
  PyFloat.lt a b = true -> PyFloat.ge a b = false.
Proof.
  unfold PyFloat.lt, PyFloat.ge, SFltb, SFleb. intros H.
  destruct (SFcompare a b) as [[]|] eqn:E; try discriminate.
  now rewrite (SFcompare_Lt_Gt _ _ E).
Qed.

(** ** The loop over the keypoints *)

Ltac unfold_monad :=
  unfold bind, lift, ret, get_self, modify_self, draw_text, draw_total in *.

Lemma tracked_cases (j : nat) :
  tracked j = true ->
  j = KP_LEFT_HIP \/ j = KP_RIGHT_HIP \/ j = KP_RIGHT_KNEE \/ j = KP_LEFT_KNEE.
Proof.
  unfold tracked. rewrite !orb_true_iff, !Nat.eqb_eq. tauto.
Qed.

Lemma assign_local_of (i j : nat) (kp : keypoint) (loc : Locals) :
  tracked j = true ->
  local_of j (fst (assign i kp loc))
  = if Nat.eqb i j then Some kp else local_of j loc.
Proof.
  intros Hj. apply tracked_cases in Hj.
  unfold KP_LEFT_HIP, KP_RIGHT_HIP, KP_RIGHT_KNEE, KP_LEFT_KNEE in Hj.
  unfold assign, local_of,
    KP_LEFT_HIP, KP_RIGHT_HIP, KP_RIGHT_KNEE, KP_LEFT_KNEE.
  destruct Hj as [-> | [-> | [-> | ->]]]; simpl;
    repeat (match goal with
            | |- context [Nat.eqb i ?n] => destruct (Nat.eqb_spec i n); subst
            end; simpl; try reflexivity; try lia).
Qed.

Section Loop.

Variable img_size : Z * Z.
Variable scores : list float.

Lemma loop_body_self i kp loc w :
  self (fst (loop_body img_size scores i kp loc w)) = self w.
Proof.
  unfold loop_body, index. unfold_monad.
  destruct (nth_error scores i) as [c|]; [|reflexivity].
  destruct (PyFloat.ge c THRESHOLD); [|reflexivity].
  destruct (map_keypoint_to_image_coords kp img_size) as [[x y]|e];
    [|reflexivity].
  destruct (assign i kp loc). reflexivity.
Qed.

Lemma loop_body_ok i kp loc w w' loc' :
  loop_body img_size scores i kp loc w = (w', Ok loc') ->
  exists c, nth_error scores i = Some c /\
    loc' = if PyFloat.ge c THRESHOLD then fst (assign i kp loc) else loc.
Proof.
  unfold loop_body, index. unfold_monad.
  destruct (nth_error scores i) as [c|]; [|discriminate].
  intros H. exists c. split; [reflexivity|].
  destruct (PyFloat.ge c THRESHOLD); [|congruence].
  destruct (map_keypoint_to_image_coords kp img_size) as [[x y]|e];
    [|discriminate].
  destruct (assign i kp loc). simpl. congruence.
Qed.

Lemma for_enumerate_self kps : forall i loc w,
  self (fst (for_enumerate img_size scores i kps loc w)) = self w.
Proof.
  induction kps as [|kp rest IH]; intros i loc w; simpl; [reflexivity|].
  unfold bind.
  pose proof (loop_body_self i kp loc w) as Hb.
  destruct (loop_body img_size scores i kp loc w) as [w1 [loc1|e]];
    simpl in Hb; [|exact Hb].
  rewrite IH. exact Hb.
Qed.

(** After the loop each of the four locals holds the keypoint of its
    index when that one was visited with enough confidence, and is what it
    was before otherwise. *)
Lemma for_enumerate_locals kps : forall i loc w w' loc',
  for_enumerate img_size scores i kps loc w = (w', Ok loc') ->
  forall j, tracked j = true ->
  local_of j loc'
  = match nth_error kps (j - i), nth_error scores j with
    | Some kp, Some c =>
        if (i <=? j)%nat && PyFloat.ge c THRESHOLD then Some kp
        else local_of j loc
    | _, _ => local_of j loc
    end.
Proof.
  induction kps as [|kp rest IH]; intros i loc w w' loc' H j Hj;
    simpl in H.
  - unfold ret in H. injection H as _ <-.
    destruct (j - i)%nat; reflexivity.
  - unfold bind in H.
    destruct (loop_body img_size scores i kp loc w) as [w1 [loc1|e]] eqn:E;
      [|discriminate].
    apply loop_body_ok in E as (c & Hc & ->).
    rewrite (IH _ _ _ _ _ H j Hj). clear IH H.
    assert (Hloc : (i <> j)%nat ->
              local_of j (if PyFloat.ge c THRESHOLD
                          then fst (assign i kp loc) else loc)
              = local_of j loc).
    { intros Hne. destruct (PyFloat.ge c THRESHOLD); [|reflexivity].
      rewrite assign_local_of by exact Hj.
      destruct (Nat.eqb_spec i j); [contradiction|reflexivity]. }
    destruct (lt_eq_lt_dec j i) as [[Hlt | ->] | Hgt].
    + replace (j - S i)%nat with 0%nat by lia.
      replace (j - i)%nat with 0%nat by lia.
      replace (S i <=? j)%nat with false by (symmetry; apply Nat.leb_gt; lia).
      replace (i <=? j)%nat with false by (symmetry; apply Nat.leb_gt; lia).
      simpl. rewrite Hloc by lia.
      destruct rest, (nth_error scores j); reflexivity.
    + replace (i - S i)%nat with 0%nat by lia.
      replace (i - i)%nat with 0%nat by lia.
      replace (S i <=? i)%nat with false by (symmetry; apply Nat.leb_gt; lia).
      rewrite Nat.leb_refl, Hc. simpl.
      assert (Hi : local_of i (if PyFloat.ge c THRESHOLD
                               then fst (assign i kp loc) else loc)
                   = if PyFloat.ge c THRESHOLD then Some kp
                     else local_of i loc).
      { destruct (PyFloat.ge c THRESHOLD); [|reflexivity].
        rewrite assign_local_of by exact Hj. now rewrite Nat.eqb_refl. }
      destruct rest; exact Hi.
    + replace (j - i)%nat with (S (j - S i)) by lia.
      replace (S i <=? j)%nat with true by (symmetry; apply Nat.leb_le; lia).
      replace (i <=? j)%nat with true by (symmetry; apply Nat.leb_le; lia).
      simpl. rewrite Hloc by lia. reflexivity.
Qed.

End Loop.

(** ** One call to [run] *)

Lemma loop_available inputs kps sc rest1 rest2 img_size w w' loc :
  keypoints inputs = kps :: rest1 ->
  keypoint_scores inputs = sc :: rest2 ->
  for_enumerate img_size sc 0 kps no_locals w = (w', Ok loc) ->
  forall j, tracked j = true -> local_of j loc = available inputs j.
Proof.
  intros Hk Hs H j Hj.
  rewrite (for_enumerate_locals _ _ _ _ _ _ _ _ H j Hj).
  unfold available, point, confidence. rewrite Hk, Hs, Nat.sub_0_r.
  replace (local_of j no_locals) with (@None keypoint).
  - reflexivity.
  - unfold local_of, no_locals; simpl.
    repeat match goal with |- context [if ?b then _ else _] => destruct b end;
      reflexivity.
Qed.

(** [run] without the monad. *)
Lemma run_eq (s : Node) (inputs : Inputs) :
  run s inputs
  = match keypoints inputs, keypoint_scores inputs with
    | kps :: _, sc :: _ =>
        let im := in_img inputs in
        match for_enumerate (snd (shape im), fst (shape im)) sc 0 kps
                no_locals (mkWorld s im) with
        | (w1, Ok loc) =>
            let s' := guarded_step loc (self w1) in
            (mkWorld s' (with_total s' (img w1)), Ok tt)
        | (w1, Raise e) => (w1, Raise e)
        end
    | _, _ => (mkWorld s (with_total s (in_img inputs)), Ok tt)
    end.
Proof.
  unfold run, run_body, guarded_step, with_total, total_text, wave_str.
  unfold_monad. simpl.
  destruct (keypoints inputs) as [|kps rest1]; [reflexivity|].
  destruct (keypoint_scores inputs) as [|sc rest2]; [reflexivity|].
  destruct (for_enumerate _ sc 0 kps no_locals _) as [w1 [loc|e]];
    [|reflexivity].
  destruct (loc_left_hip loc), (loc_right_hip loc),
    (loc_left_knee loc), (loc_right_knee loc); reflexivity.
Qed.

(** What a call does to the node: the counting step when the call returns
    and the four tracked keypoints are available, nothing otherwise. *)
Lemma run_self (s : Node) (inputs : Inputs) :
  self (fst (run s inputs))
  = match snd (run s inputs),
          available inputs KP_LEFT_HIP, available inputs KP_RIGHT_HIP,
          available inputs KP_LEFT_KNEE, available inputs KP_RIGHT_KNEE with
    | Ok _, Some lh, Some rh, Some lk, Some rk => count_knees rk rh lk lh s
    | _, _, _, _, _ => s
    end.
Proof.
  rewrite run_eq.
  destruct (keypoints inputs) as [|kps rest1] eqn:Hk.
  { unfold available, point. rewrite Hk. reflexivity. }
  destruct (keypoint_scores inputs) as [|sc rest2] eqn:Hs.
  { unfold available, point, confidence. rewrite Hk, Hs.
    destruct (nth_error kps KP_LEFT_HIP); reflexivity. }
  cbv zeta.
  set (w0 := mkWorld s (in_img inputs)).
  set (sz := (snd (shape (in_img inputs)), fst (shape (in_img inputs)))).
  pose proof (for_enumerate_self sz sc kps 0%nat no_locals w0) as Hself.
  destruct (for_enumerate sz sc 0 kps no_locals w0) as [w1 [loc|e]] eqn:E;
    simpl in Hself; [|exact Hself].
  pose proof (loop_available _ _ _ _ _ _ _ _ _ Hk Hs E) as Hav.
  rewrite <- (Hav KP_LEFT_HIP eq_refl), <- (Hav KP_RIGHT_HIP eq_refl),
    <- (Hav KP_LEFT_KNEE eq_refl), <- (Hav KP_RIGHT_KNEE eq_refl).
  cbn [fst snd self]. rewrite Hself. reflexivity.
Qed.

(** A call that raises leaves the node as it was. *)
Lemma run_raise_self (s : Node) (inputs : Inputs) (e : exn) :
  snd (run s inputs) = Raise e -> self (fst (run s inputs)) = s.
Proof.
  intros H. rewrite run_self, H. reflexivity.
Qed.

(** In every case the node is left alone or stepped once. *)
Lemma run_self_cases (s : Node) (inputs : Inputs) :
  self (fst (run s inputs)) = s \/
  exists rk rh lk lh, self (fst (run s inputs)) = count_knees rk rh lk lh s.
Proof.
  rewrite run_self.
  destruct (snd (run s inputs)); [|now left].
  destruct (available inputs KP_LEFT_HIP) as [lh|]; [|now left].
  destruct (available inputs KP_RIGHT_HIP) as [rh|]; [|now left].
  destruct (available inputs KP_LEFT_KNEE) as [lk|]; [|now left].
  destruct (available inputs KP_RIGHT_KNEE) as [rk|]; [|now left].
  right. now exists rk, rh, lk, lh.
Qed.

(** Whether the loop returns does not depend on the world it runs in. *)
Lemma for_enumerate_returns_any_world img_size sc kps : forall i loc w w',
  snd (for_enumerate img_size sc i kps loc w)
  = snd (for_enumerate img_size sc i kps loc w').
Proof.
  induction kps as [|kp rest IH]; intros i loc w w'; simpl; [reflexivity|].
  unfold bind.
  assert (Hb : snd (loop_body img_size sc i kp loc w)
               = snd (loop_body img_size sc i kp loc w')).
  { unfold loop_body, index. unfold_monad.
    destruct (nth_error sc i) as [c|]; [|reflexivity].
    destruct (PyFloat.ge c THRESHOLD); [|reflexivity].
    destruct (map_keypoint_to_image_coords kp img_size) as [[x y]|e];
      [|reflexivity].
    destruct (assign i kp loc). reflexivity. }
  destruct (loop_body img_size sc i kp loc w) as [w1 [loc1|e1]],
    (loop_body img_size sc i kp loc w') as [w1' [loc1'|e1']];
    simpl in Hb; try discriminate Hb; [|exact Hb].
  injection Hb as ->. apply IH.
Qed.

(** Whether a call returns does not depend on the node it is made on. *)
Lemma run_returns_any_node (s s' : Node) (inputs : Inputs) :
  snd (run s inputs) = snd (run s' inputs).
Proof.
  rewrite !run_eq.
  destruct (keypoints inputs) as [|kps rest1]; [reflexivity|].
  destruct (keypoint_scores inputs) as [|sc rest2]; [reflexivity|].
  cbv zeta.
  set (sz := (snd (shape (in_img inputs)), fst (shape (in_img inputs)))).
  pose proof (for_enumerate_returns_any_world sz sc kps 0%nat no_locals
                (mkWorld s (in_img inputs)) (mkWorld s' (in_img inputs))) as H.
  destruct (for_enumerate sz sc 0 kps no_locals (mkWorld s (in_img inputs)))
    as [w1 [loc|e]],
    (for_enumerate sz sc 0 kps no_locals (mkWorld s' (in_img inputs)))
    as [w1' [loc'|e']];
    simpl in H; try discriminate H; [reflexivity|simpl; congruence].
Qed.

(** ** The counting step against the specification's state machine *)

Lemma update_right_limb (rk rh : keypoint) (s : Node) :
  limb Right (update_right rk rh s) = Spec.update rh rk (limb Right s) /\
  limb Left (update_right rk rh s) = limb Left s.
Proof.
  destruct s as [rw srk slk ru lu d rc rn lc ln].
  unfold update_right, position, Spec.update, limb.
  generalize (if PyFloat.lt (snd rk) (snd rh) then "up" else "down")%string.
  intros p. simpl.
  destruct (String.eqb p ru); simpl;
    match goal with |- context [2 <=? ?a] => destruct (2 <=? a) end;
    split; reflexivity.
Qed.

Lemma update_left_limb (lk lh : keypoint) (s : Node) :
  limb Left (update_left lk lh s) = Spec.update lh lk (limb Left s) /\
  limb Right (update_left lk lh s) = limb Right s.
Proof.
  destruct s as [rw srk slk ru lu d rc rn lc ln].
  unfold update_left, position, Spec.update, limb.
  generalize (if PyFloat.lt (snd lk) (snd lh) then "up" else "down")%string.
  intros p. simpl.
  destruct (String.eqb p lu); simpl;
    match goal with |- context [2 <=? ?a] => destruct (2 <=? a) end;
    split; reflexivity.
Qed.

(** Each leg of the node steps as the specification's limb does, on its own
    hip and knee. *)
Lemma count_knees_limb (sd : side) (rk rh lk lh : keypoint) (s : Node) :
  limb sd (count_knees rk rh lk lh s)
  = match sd with
    | Left => Spec.update lh lk (limb Left s)
    | Right => Spec.update rh rk (limb Right s)
    end.
Proof.
  unfold count_knees.
  set (s1 := match right_knee s with
             | None => set_right_knee (Some rk) s
             | Some _ => s
             end).
  set (s2 := match left_knee s1 with
             | None => set_left_knee (Some lk) s1
             | Some _ => s1
             end).
  assert (H : forall sd', limb sd' s2 = limb sd' s).
  { intros sd'. subst s2 s1.
    destruct s as [rw [?|] [?|] ru lu d rc rn lc ln], sd'; reflexivity. }
  destruct (update_left_limb lk lh (update_right rk rh s2)) as [Hl Hr].
  destruct (update_right_limb rk rh s2) as [Hr' Hl'].
  destruct sd.
  - rewrite Hl, Hl', H. reflexivity.
  - rewrite Hr, Hr', H. reflexivity.
Qed.

Lemma update_right_fields (rk rh : keypoint) (s : Node) :
  right_wrist (update_right rk rh s) = right_wrist s /\
  direction (update_right rk rh s) = direction s /\
  right_knee (update_right rk rh s) = right_knee s /\
  left_knee (update_right rk rh s) = left_knee s.
Proof.
  destruct s as [rw srk slk ru lu d rc rn lc ln].
  unfold update_right, position.
  generalize (if PyFloat.lt (snd rk) (snd rh) then "up" else "down")%string.
  intros p. simpl.
  destruct (String.eqb p ru); simpl;
    match goal with |- context [2 <=? ?a] => destruct (2 <=? a) end;
    repeat split; reflexivity.
Qed.

Lemma update_left_fields (lk lh : keypoint) (s : Node) :
  right_wrist (update_left lk lh s) = right_wrist s /\
  direction (update_left lk lh s) = direction s /\
  right_knee (update_left lk lh s) = right_knee s /\
  left_knee (update_left lk lh s) = left_knee s.
Proof.
  destruct s as [rw srk slk ru lu d rc rn lc ln].
  unfold update_left, position.
  generalize (if PyFloat.lt (snd lk) (snd lh) then "up" else "down")%string.
  intros p. simpl.
  destruct (String.eqb p lu); simpl;
    match goal with |- context [2 <=? ?a] => destruct (2 <=? a) end;
    repeat split; reflexivity.
Qed.

(** The counting step keeps [right_wrist] and [direction], and stores each
    knee only while nothing is stored for it. *)
Lemma count_knees_fields (rk rh lk lh : keypoint) (s : Node) :
  right_wrist (count_knees rk rh lk lh s) = right_wrist s /\
  direction (count_knees rk rh lk lh s) = direction s /\
  right_knee (count_knees rk rh lk lh s)
  = match right_knee s with Some k => Some k | None => Some rk end /\
  left_knee (count_knees rk rh lk lh s)
  = match left_knee s with Some k => Some k | None => Some lk end.
Proof.
  unfold count_knees.
  set (s1 := match right_knee s with
             | None => set_right_knee (Some rk) s
             | Some _ => s
             end).
  set (s2 := match left_knee s1 with
             | None => set_left_knee (Some lk) s1
             | Some _ => s1
             end).
  destruct (update_left_fields lk lh (update_right rk rh s2))
    as (-> & -> & -> & ->).
  destruct (update_right_fields rk rh s2) as (-> & -> & -> & ->).
  subst s2 s1.
  destruct s as [rw [?|] [?|] ru lu d rc rn lc ln]; repeat split; reflexivity.
Qed.

(** ** Consequences for one frame *)

Lemma all_available_inv (f : Inputs) :
  all_available f = true ->
  exists lh rh lk rk,
    available f KP_LEFT_HIP = Some lh /\ available f KP_RIGHT_HIP = Some rh /\
    available f KP_LEFT_KNEE = Some lk /\ available f KP_RIGHT_KNEE = Some rk.
Proof.
  unfold all_available.
  destruct (available f KP_LEFT_HIP) as [lh|]; [|discriminate].
  destruct (available f KP_RIGHT_HIP) as [rh|]; [|discriminate].
  destruct (available f KP_LEFT_KNEE) as [lk|]; [|discriminate].
  destruct (available f KP_RIGHT_KNEE) as [rk|]; [|discriminate].
  intros _. now exists lh, rh, lk, rk.
Qed.

Lemma run_unavailable (s : Node) (f : Inputs) :
  all_available f = false -> self (fst (run s f)) = s.
Proof.
  unfold all_available. rewrite run_self.
  destruct (snd (run s f)); [|reflexivity].
  destruct (available f KP_LEFT_HIP); [|reflexivity].
  destruct (available f KP_RIGHT_HIP); [|reflexivity].
  destruct (available f KP_LEFT_KNEE); [|reflexivity].
  destruct (available f KP_RIGHT_KNEE); [discriminate|reflexivity].
Qed.

(** On a frame that is counted, each leg takes one step of the limb state
    machine on its own hip and knee. *)
Lemma run_limb_step (sd : side) (s : Node) (f : Inputs) (hip knee : keypoint) :
  update_runs s f ->
  available f (hip_index sd) = Some hip ->
  available f (knee_index sd) = Some knee ->
  limb sd (self (fst (run s f))) = Spec.update hip knee (limb sd s).
Proof.
  intros [Hret Hall] Hh Hk.
  destruct (all_available_inv f Hall) as (lh & rh & lk & rk & H1 & H2 & H3 & H4).
  rewrite run_self, Hret, H1, H2, H3, H4, count_knees_limb.
  destruct sd; simpl in Hh, Hk; congruence.
Qed.

(** A call that returns has put the total of the node, as the call leaves
    it, on the frame last. *)
Lemma run_drawn_total (s : Node) (f : Inputs) :
  snd (run s f) = Ok tt ->
  exists before,
    drawn (img (fst (run s f)))
    = before ++ [total_text (l_num_waves (self (fst (run s f)))
                             + r_num_waves (self (fst (run s f))))].
Proof.
  rewrite run_eq.
  destruct (keypoints f) as [|kps rest1].
  { intros _. now exists (drawn (in_img f)). }
  destruct (keypoint_scores f) as [|sc rest2].
  { intros _. now exists (drawn (in_img f)). }
  cbv zeta.
  destruct (for_enumerate _ sc 0 kps no_locals _) as [w1 [loc|e]];
    [|discriminate].
  intros _. now exists (drawn (img w1)).
Qed.

(** One step of the limb state machine: the counter of repetitions stays or
    grows by one, and the transition counter stays low. *)
Lemma update_rep_count (hip knee : keypoint) (st : Spec.LimbState) :
  let tc := if String.eqb (if PyFloat.lt (snd knee) (snd hip)
                           then "up" else "down")%string (Spec.lastPosition st)
            then Spec.transitionCount st else Spec.transitionCount st + 1 in
  (2 <= tc ->
   Spec.repCount (Spec.update hip knee st) = Spec.repCount st + 1 /\
   Spec.transitionCount (Spec.update hip knee st) = 0) /\
  (tc < 2 ->
   Spec.repCount (Spec.update hip knee st) = Spec.repCount st /\
   Spec.transitionCount (Spec.update hip knee st) = tc).
Proof.
  unfold Spec.update.
  generalize (if PyFloat.lt (snd knee) (snd hip) then "up" else "down")%string.
  intros p.
  destruct (String.eqb p (Spec.lastPosition st)); cbv zeta;
    match goal with |- context [2 <=? ?a] => destruct (Z.leb_spec 2 a) end;
    simpl; split; intros; try lia; split; reflexivity.
Qed.

Lemma update_rep_count_cases (hip knee : keypoint) (st : Spec.LimbState) :
  Spec.repCount (Spec.update hip knee st) = Spec.repCount st \/
  (Spec.repCount (Spec.update hip knee st) = Spec.repCount st + 1 /\
   Spec.transitionCount (Spec.update hip knee st) = 0).
Proof.
  destruct (update_rep_count hip knee st) as [H2 H1]. cbv zeta in *.
  match type of H2 with 2 <= ?a -> _ => destruct (Z.le_gt_cases 2 a) end.
  - right. auto.
  - left. apply H1. lia.
Qed.

Lemma update_counter_low (hip knee : keypoint) (st : Spec.LimbState) :
  Spec.transitionCount st = 0 \/ Spec.transitionCount st = 1 ->
  Spec.transitionCount (Spec.update hip knee st) = 0 \/
  Spec.transitionCount (Spec.update hip knee st) = 1.
Proof.
  intros H. destruct (update_rep_count hip knee st) as [H2 H1].
  cbv zeta in *.
  destruct (String.eqb _ (Spec.lastPosition st));
    match type of H2 with 2 <= ?a -> _ => destruct (Z.le_gt_cases 2 a) end;
    try (left; apply H2; assumption);
    destruct H1 as [_ ->]; lia.
Qed.

(** A call leaves each leg alone or steps it once. *)
Lemma run_limb_cases (sd : side) (s : Node) (f : Inputs) :
  limb sd (self (fst (run s f))) = limb sd s \/
  exists hip knee,
    limb sd (self (fst (run s f))) = Spec.update hip knee (limb sd s).
Proof.
  destruct (run_self_cases s f) as [-> | (rk & rh & lk & lh & ->)];
    [now left|right].
  rewrite count_knees_limb. destruct sd; eauto.
Qed.

Lemma run_rep_count_le (sd : side) (s : Node) (f : Inputs) :
  Spec.repCount (limb sd s) <= Spec.repCount (limb sd (self (fst (run s f)))).
Proof.
  destruct (run_limb_cases sd s f) as [-> | (hip & knee & ->)]; [lia|].
  destruct (update_rep_count_cases hip knee (limb sd s)) as [-> | [-> _]]; lia.
Qed.

Lemma run_counters_low (s : Node) (f : Inputs) :
  counters_low s -> counters_low (self (fst (run s f))).
Proof.
  unfold counters_low. intros [Hr Hl].
  change (r_num_direction_changes s)
    with (Spec.transitionCount (limb Right s)) in Hr.
  change (l_num_direction_changes s)
    with (Spec.transitionCount (limb Left s)) in Hl.
  change ((Spec.transitionCount (limb Right (self (fst (run s f)))) = 0 \/
           Spec.transitionCount (limb Right (self (fst (run s f)))) = 1) /\
          (Spec.transitionCount (limb Left (self (fst (run s f)))) = 0 \/
           Spec.transitionCount (limb Left (self (fst (run s f)))) = 1)).
  split.
  - destruct (run_limb_cases Right s f) as [-> | (hip & knee & ->)];
      [exact Hr | now apply update_counter_low].
  - destruct (run_limb_cases Left s f) as [-> | (hip & knee & ->)];
      [exact Hl | now apply update_counter_low].
Qed.

(** ** Streams of frames *)

Lemma run_frames_rep_count_le (sd : side) (frames : list Inputs) :
  forall s,
    Spec.repCount (limb sd s)
    <= Spec.repCount (limb sd (fst (run_frames s frames))).
Proof.
  induction frames as [|f rest IH]; intros s; simpl; [lia|].
  pose proof (run_rep_count_le sd s f) as H.
  destruct (run s f) as [w [[]|e]]; simpl in *; [|exact H].
  specialize (IH (self w)). lia.
Qed.

Lemma run_frames_frozen (frames : list Inputs) :
  Forall (fun f => all_available f = false) frames ->
  forall s, fst (run_frames s frames) = s.
Proof.
  induction 1 as [|f rest Hf _ IH]; intros s; simpl; [reflexivity|].
  pose proof (run_unavailable s f Hf) as H.
  destruct (run s f) as [w [[]|e]]; simpl in *; [|exact H].
  rewrite IH. exact H.
Qed.

(** * The claims *)

(** C1 (as amended).  The guard of [run] asks for the four tracked keypoints
    together.  On a frame where the call returns and both hips and both
    knees are available, each leg takes one step of its state machine on its
    own hip and knee.  On a frame where at least one of the four is below
    threshold or absent, the node is left as it was: neither leg is updated,
    also not the one whose hip and knee are both available.  A stream of
    frames on which some tracked keypoint is always unavailable leaves all
    counters where they were. *)
Theorem both_legs_or_none (s : Node) (f : Inputs) :
  (forall lh rh lk rk,
      snd (run s f) = Ok tt ->
      available f KP_LEFT_HIP = Some lh ->
      available f KP_RIGHT_HIP = Some rh ->
      available f KP_LEFT_KNEE = Some lk ->
      available f KP_RIGHT_KNEE = Some rk ->
      limb Left (self (fst (run s f))) = Spec.update lh lk (limb Left s) /\
      limb Right (self (fst (run s f))) = Spec.update rh rk (limb Right s)) /\
  (available f KP_LEFT_HIP = None \/ available f KP_RIGHT_HIP = None \/
   available f KP_LEFT_KNEE = None \/ available f KP_RIGHT_KNEE = None ->
   self (fst (run s f)) = s) /\
  (forall frames,
      Forall (fun f' =>
                available f' KP_LEFT_HIP = None \/
                available f' KP_RIGHT_HIP = None \/
                available f' KP_LEFT_KNEE = None \/
                available f' KP_RIGHT_KNEE = None) frames ->
      fst (run_frames s frames) = s).
Proof.
  assert (Hnone : forall f',
             available f' KP_LEFT_HIP = None \/
             available f' KP_RIGHT_HIP = None \/
             available f' KP_LEFT_KNEE = None \/
             available f' KP_RIGHT_KNEE = None ->
             all_available f' = false).
  { intros f' H. unfold all_available.
    destruct H as [-> | [-> | [-> | ->]]];
      repeat match goal with
             | |- context [match available ?g ?i with _ => _ end] =>
                 destruct (available g i)
             end; reflexivity. }
  split; [|split].
  - intros lh rh lk rk Hret H1 H2 H3 H4.
    rewrite run_self, Hret, H1, H2, H3, H4.
    split; [apply (count_knees_limb Left) | apply (count_knees_limb Right)].
  - intros H. apply run_unavailable, Hnone, H.
  - intros frames H. apply run_frames_frozen.
    eapply Forall_impl; [|exact H]. exact Hnone.
Qed.

Lemma both_legs_or_none_witness :
  (limb Left (self (fst (run __init__ (Sample.right_leg Sample.knee_up))))
   = Spec.update Sample.hip Sample.knee_down (limb Left __init__) /\
   limb Right (self (fst (run __init__ (Sample.right_leg Sample.knee_up))))
   = Spec.update Sample.hip Sample.knee_up (limb Right __init__)) /\
  self (fst (run __init__ (Sample.right_only Sample.knee_up))) = __init__ /\
  fst (run_frames __init__
         [Sample.right_only Sample.knee_up; Sample.right_only Sample.knee_down])
  = __init__.
Proof.
  split; [|split].
  - apply (both_legs_or_none __init__ (Sample.right_leg Sample.knee_up));
      reflexivity.
  - apply (both_legs_or_none __init__ (Sample.right_only Sample.knee_up)).
    left. reflexivity.
  - apply (both_legs_or_none __init__ Sample.nobody).
    repeat constructor.
Defined.

(** C1 (as stated) fails.  With the right hip and knee at full confidence,
    the right knee above the hip and the left hip and knee below threshold,
    the right leg is not stepped; and four such frames with the right knee
    up, down, up, down leave [r_num_waves] at 0. *)
Lemma side_independence_fails :
  ~ (forall (s : Node) (f : Inputs) (sd : side) (hip knee : keypoint)
            (c : float),
        available f (hip_index sd) = Some hip ->
        available f (knee_index sd) = Some knee ->
        confidence f (knee_index (other sd)) = Some c ->
        PyFloat.lt c THRESHOLD = true ->
        limb sd (self (fst (run s f))) = Spec.update hip knee (limb sd s)) /\
  r_num_waves
    (fst (run_frames __init__
            [Sample.right_only Sample.knee_up;
             Sample.right_only Sample.knee_down;
             Sample.right_only Sample.knee_up;
             Sample.right_only Sample.knee_down])) = 0.
Proof.
  split; [|reflexivity].
  intros H.
  specialize (H __init__ (Sample.right_only Sample.knee_up) Right
                Sample.hip Sample.knee_up Sample.quarter
                eq_refl eq_refl eq_refl eq_refl).
  vm_compute in H. discriminate H.
Qed.

(** C2.  Over any stream of frames the counter of each leg and their sum
    never decrease.  Within one call the counter of a leg stays or grows by
    exactly one, and in the latter case the leg's transition counter is back
    at 0.  On a frame that is counted, with [tc] the transition counter
    after the comparison with the last position: if [tc] has reached 2 the
    counter of repetitions grows by one and the transition counter is reset
    to 0, otherwise the counter of repetitions stays and the transition
    counter is [tc]. *)
Theorem rep_count_monotone (s : Node) :
  (forall frames,
      l_num_waves s <= l_num_waves (fst (run_frames s frames)) /\
      r_num_waves s <= r_num_waves (fst (run_frames s frames)) /\
      l_num_waves s + r_num_waves s
      <= l_num_waves (fst (run_frames s frames))
         + r_num_waves (fst (run_frames s frames))) /\
  (forall f sd,
      Spec.repCount (limb sd (self (fst (run s f)))) = Spec.repCount (limb sd s)
      \/
      (Spec.repCount (limb sd (self (fst (run s f))))
       = Spec.repCount (limb sd s) + 1 /\
       Spec.transitionCount (limb sd (self (fst (run s f)))) = 0)) /\
  (forall f sd hip knee,
      update_runs s f ->
      available f (hip_index sd) = Some hip ->
      available f (knee_index sd) = Some knee ->
      let tc := if String.eqb (position knee hip)
                     (Spec.lastPosition (limb sd s))
                then Spec.transitionCount (limb sd s)
                else Spec.transitionCount (limb sd s) + 1 in
      (2 <= tc ->
       Spec.repCount (limb sd (self (fst (run s f))))
       = Spec.repCount (limb sd s) + 1 /\
       Spec.transitionCount (limb sd (self (fst (run s f)))) = 0) /\
      (tc < 2 ->
       Spec.repCount (limb sd (self (fst (run s f))))
       = Spec.repCount (limb sd s) /\
       Spec.transitionCount (limb sd (self (fst (run s f)))) = tc)).
Proof.
  split; [|split].
  - intros frames.
    pose proof (run_frames_rep_count_le Left frames s) as Hl.
    pose proof (run_frames_rep_count_le Right frames s) as Hr.
    simpl in Hl, Hr. lia.
  - intros f sd.
    destruct (run_limb_cases sd s f) as [-> | (hip & knee & ->)];
      [now left | apply update_rep_count_cases].
  - intros f sd hip knee Hrun Hh Hk.
    rewrite (run_limb_step sd s f hip knee Hrun Hh Hk).
    apply update_rep_count.
Qed.

Lemma rep_count_monotone_witness :
  let s := self (fst (run __init__ (Sample.right_leg Sample.knee_up))) in
  let f := Sample.right_leg Sample.knee_down in
  r_num_direction_changes s = 1 /\
  r_num_waves (self (fst (run s f))) = r_num_waves s + 1 /\
  r_num_direction_changes (self (fst (run s f))) = 0.
Proof.
  intros s f. split; [reflexivity|].
  destruct (rep_count_monotone s) as (_ & _ & H).
  apply (H f Right Sample.hip Sample.knee_down).
  - split; reflexivity.
  - reflexivity.
  - reflexivity.
  - vm_compute. discriminate.
Defined.

(** The limb state machine on a leg that is down with no pending
    transition. *)
Lemma update_from_rest (hip knee : keypoint) (r : Z) :
  Spec.update hip knee (Spec.mkLimb "down" 0 r)
  = if PyFloat.lt (snd knee) (snd hip)
    then Spec.mkLimb "up" 1 r else Spec.mkLimb "down" 0 r.
Proof.
  unfold Spec.update. destruct (PyFloat.lt (snd knee) (snd hip)); reflexivity.
Qed.

Lemma update_from_raised (hip knee : keypoint) (r : Z) :
  Spec.update hip knee (Spec.mkLimb "up" 1 r)
  = if PyFloat.lt (snd knee) (snd hip)
    then Spec.mkLimb "up" 1 r else Spec.mkLimb "down" 0 (r + 1).
Proof.
  unfold Spec.update. destruct (PyFloat.lt (snd knee) (snd hip)); reflexivity.
Qed.

(** C3.  Two-flip rule, for either leg: from last position "down" and no
    pending transition, three counted frames with the knee strictly below,
    strictly above and strictly below the hip line add exactly one
    repetition and leave the transition counter at 0. *)
Theorem two_flip_rule (sd : side) (s0 : Node) (f1 f2 f3 : Inputs)
    (h1 k1 h2 k2 h3 k3 : keypoint) :
  Spec.lastPosition (limb sd s0) = "down"%string ->
  Spec.transitionCount (limb sd s0) = 0 ->
  let s1 := self (fst (run s0 f1)) in
  let s2 := self (fst (run s1 f2)) in
  let s3 := self (fst (run s2 f3)) in
  update_runs s0 f1 -> update_runs s1 f2 -> update_runs s2 f3 ->
  available f1 (hip_index sd) = Some h1 ->
  available f1 (knee_index sd) = Some k1 ->
  PyFloat.lt (snd h1) (snd k1) = true ->
  available f2 (hip_index sd) = Some h2 ->
  available f2 (knee_index sd) = Some k2 ->
  PyFloat.lt (snd k2) (snd h2) = true ->
  available f3 (hip_index sd) = Some h3 ->
  available f3 (knee_index sd) = Some k3 ->
  PyFloat.lt (snd h3) (snd k3) = true ->
  Spec.repCount (limb sd s3) = Spec.repCount (limb sd s0) + 1 /\
  Spec.transitionCount (limb sd s3) = 0.
Proof.
  intros Hpos Htc s1 s2 s3 R1 R2 R3 Hh1 Hk1 L1 Hh2 Hk2 L2 Hh3 Hk3 L3.
  subst s3.
  rewrite (run_limb_step sd s2 f3 h3 k3 R3 Hh3 Hk3). subst s2.
  rewrite (run_limb_step sd s1 f2 h2 k2 R2 Hh2 Hk2). subst s1.
  rewrite (run_limb_step sd s0 f1 h1 k1 R1 Hh1 Hk1).
  destruct (limb sd s0) as [p t r]. simpl in Hpos, Htc. subst p t.
  rewrite update_from_rest, (lt_not_gt _ _ L1).
  rewrite update_from_rest, L2.
  rewrite update_from_raised, (lt_not_gt _ _ L3).
  split; reflexivity.
Qed.

Lemma two_flip_rule_witness :
  let f_down := Sample.left_leg Sample.knee_down in
  let f_up := Sample.left_leg Sample.knee_up in
  let s3 := self (fst (run (self (fst (run (self (fst (run __init__ f_down)))
                                         f_up))) f_down)) in
  l_num_waves s3 = 1 /\ l_num_direction_changes s3 = 0.
Proof.
  intros f_down f_up s3.
  apply (two_flip_rule Left __init__ f_down f_up f_down
           Sample.hip Sample.knee_down Sample.hip Sample.knee_up
           Sample.hip Sample.knee_down);
    try reflexivity; split; reflexivity.
Defined.

(** C4.  No-op on a single flip, for either leg: from last position "down"
    and no pending transition, two counted frames that yield the positions
    "down" then "up" leave the counter of repetitions where it was and the
    transition counter at 1. *)
Theorem single_flip_no_count (sd : side) (s0 : Node) (f1 f2 : Inputs)
    (h1 k1 h2 k2 : keypoint) :
  Spec.lastPosition (limb sd s0) = "down"%string ->
  Spec.transitionCount (limb sd s0) = 0 ->
  let s1 := self (fst (run s0 f1)) in
  let s2 := self (fst (run s1 f2)) in
  update_runs s0 f1 -> update_runs s1 f2 ->
  available f1 (hip_index sd) = Some h1 ->
  available f1 (knee_index sd) = Some k1 ->
  position k1 h1 = "down"%string ->
  available f2 (hip_index sd) = Some h2 ->
  available f2 (knee_index sd) = Some k2 ->
  position k2 h2 = "up"%string ->
  Spec.repCount (limb sd s2) = Spec.repCount (limb sd s0) /\
  Spec.transitionCount (limb sd s2) = 1.
Proof.
  intros Hpos Htc s1 s2 R1 R2 Hh1 Hk1 P1 Hh2 Hk2 P2.
  subst s2.
  rewrite (run_limb_step sd s1 f2 h2 k2 R2 Hh2 Hk2). subst s1.
  rewrite (run_limb_step sd s0 f1 h1 k1 R1 Hh1 Hk1).
  destruct (limb sd s0) as [p t r]. simpl in Hpos, Htc. subst p t.
  unfold position in P1, P2.
  rewrite update_from_rest.
  destruct (PyFloat.lt (snd k1) (snd h1)); [discriminate P1|].
  rewrite update_from_rest.
  destruct (PyFloat.lt (snd k2) (snd h2)); [|discriminate P2].
  split; reflexivity.
Qed.

Lemma single_flip_no_count_witness :
  let f_down := Sample.right_leg Sample.knee_down in
  let f_up := Sample.right_leg Sample.knee_up in
  let s2 := self (fst (run (self (fst (run __init__ f_down))) f_up)) in
  r_num_waves s2 = 0 /\ r_num_direction_changes s2 = 1.
Proof.
  intros f_down f_up s2.
  apply (single_flip_no_count Right __init__ f_down f_up
           Sample.hip Sample.knee_down Sample.hip Sample.knee_up);
    try reflexivity; split; reflexivity.
Defined.

(** C5.  Threshold and freeze.  When the loop over the keypoints returns,
    the local variable of a tracked keypoint holds that keypoint exactly
    when its confidence is at least the threshold; a confidence strictly
    below the threshold leaves the variable at [None].  And a frame in which
    the hip or the knee of a leg has a confidence strictly below the
    threshold leaves the node, and so that leg's last position, transition
    counter and counter of repetitions, as they were, whatever the
    coordinates are. *)
Theorem threshold_freeze :
  (forall img_size sc kps w w' loc j kp c,
      for_enumerate img_size sc 0 kps no_locals w = (w', Ok loc) ->
      tracked j = true ->
      nth_error kps j = Some kp ->
      nth_error sc j = Some c ->
      (PyFloat.ge c THRESHOLD = true -> local_of j loc = Some kp) /\
      (PyFloat.ge c THRESHOLD = false -> local_of j loc = None) /\
      (PyFloat.lt c THRESHOLD = true -> local_of j loc = None)) /\
  (forall s f sd c,
      confidence f (hip_index sd) = Some c \/
      confidence f (knee_index sd) = Some c ->
      PyFloat.lt c THRESHOLD = true ->
      self (fst (run s f)) = s /\
      limb sd (self (fst (run s f))) = limb sd s).
Proof.
  split.
  - intros img_size sc kps w w' loc j kp c H Hj Hkp Hc.
    rewrite (for_enumerate_locals _ _ _ _ _ _ _ _ H j Hj).
    rewrite Nat.sub_0_r, Hkp, Hc. simpl.
    replace (local_of j no_locals) with (@None keypoint).
    + repeat split; intros Hge; try rewrite (lt_not_ge _ _ Hge);
        try rewrite Hge; reflexivity.
    + unfold local_of, no_locals; simpl.
      repeat match goal with |- context [if ?b then _ else _] => destruct b end;
        reflexivity.
  - intros s f sd c Hc Hlt.
    assert (Hs : self (fst (run s f)) = s).
    { apply run_unavailable. apply lt_not_ge in Hlt.
      unfold all_available, available.
      destruct sd, Hc as [Hc | Hc]; simpl in Hc; rewrite Hc, Hlt;
        repeat match goal with
               | |- context [match point ?g ?i with _ => _ end] =>
                   destruct (point g i)
               | |- context [match confidence ?g ?i with _ => _ end] =>
                   destruct (confidence g i)
               | |- context [if ?b then _ else _] => destruct b
               end; reflexivity. }
    rewrite Hs. split; reflexivity.
Qed.

Lemma threshold_freeze_witness :
  (exists w' loc,
      for_enumerate (640, 480)
        (hd [] (keypoint_scores Sample.right_knee_unsure)) 0
        (hd [] (keypoints Sample.right_knee_unsure))
        no_locals (mkWorld __init__ Sample.blank) = (w', Ok loc) /\
      local_of KP_RIGHT_HIP loc = Some Sample.hip /\
      local_of KP_RIGHT_KNEE loc = None) /\
  limb Right (self (fst (run __init__ Sample.right_knee_unsure)))
  = limb Right __init__.
Proof.
  split.
  - destruct (for_enumerate (640, 480)
                (hd [] (keypoint_scores Sample.right_knee_unsure)) 0
                (hd [] (keypoints Sample.right_knee_unsure))
                no_locals (mkWorld __init__ Sample.blank))
      as [w' [loc|e]] eqn:E; [|vm_compute in E; discriminate E].
    exists w', loc. split; [reflexivity|]. split.
    + apply (proj1 threshold_freeze _ _ _ _ _ _ KP_RIGHT_HIP Sample.hip
               Sample.one E); reflexivity.
    + apply (proj1 threshold_freeze _ _ _ _ _ _ KP_RIGHT_KNEE Sample.knee_up
               Sample.quarter E); reflexivity.
  - apply (proj2 threshold_freeze __init__
             Sample.right_knee_unsure Right Sample.quarter).
    + right. reflexivity.
    + reflexivity.
Defined.

(** C6.  Absent-subject freeze: when [keypoints] or [keypoint_scores] is
    empty, the call returns, the node is exactly as before, and the only
    text put on the frame is the total computed from that unchanged node. *)
Theorem absent_subject_freeze (s : Node) (f : Inputs) :
  keypoints f = [] \/ keypoint_scores f = [] ->
  snd (run s f) = Ok tt /\
  self (fst (run s f)) = s /\
  drawn (img (fst (run s f)))
  = drawn (in_img f)
    ++ [mkText (20, 30)
          ("high knees = " ++ str_int (l_num_waves s + r_num_waves s))%string
          YELLOW].
Proof.
  intros H. rewrite run_eq.
  destruct H as [-> | ->]; [|destruct (keypoints f)];
    repeat split; reflexivity.
Qed.

Lemma absent_subject_freeze_witness :
  let s := fst (run_frames __init__
                  [Sample.right_leg Sample.knee_up;
                   Sample.right_leg Sample.knee_down]) in
  snd (run s Sample.nobody) = Ok tt /\
  self (fst (run s Sample.nobody)) = s /\
  drawn (img (fst (run s Sample.nobody)))
  = [mkText (20, 30) "high knees = 1" YELLOW].
Proof.
  intros s.
  apply (absent_subject_freeze s Sample.nobody). left. reflexivity.
Defined.

Lemma run_frames_counters_low (frames : list Inputs) :
  forall s, counters_low s -> counters_low (fst (run_frames s frames)).
Proof.
  induction frames as [|f rest IH]; intros s Hs; simpl; [exact Hs|].
  pose proof (run_counters_low s f Hs) as H.
  destruct (run s f) as [w [[]|e]]; simpl in *; [|exact H].
  apply IH, H.
Qed.

(** C7.  Transition-counter invariant: both transition counters are 0 or 1
    on the fresh node and on the node that any stream of frames leaves
    behind, hence after every call; and every single call keeps them so. *)
Theorem transition_counter_low :
  counters_low __init__ /\
  (forall frames, counters_low (fst (run_frames __init__ frames))) /\
  (forall s f, counters_low s -> counters_low (self (fst (run s f)))).
Proof.
  assert (H0 : counters_low __init__) by (split; left; reflexivity).
  split; [exact H0|]. split.
  - intros frames. apply run_frames_counters_low, H0.
  - exact run_counters_low.
Qed.

Lemma transition_counter_low_witness :
  counters_low
    (self (fst (run (self (fst (run __init__ (Sample.right_leg Sample.knee_up))))
                  (Sample.right_leg Sample.knee_down)))).
Proof.
  apply (proj2 (proj2 transition_counter_low)).
  split; [right | left]; reflexivity.
Defined.

(** C9.  Aggregated display: a call that returns has put last on the frame,
    at (20, 30) and in yellow, the text "high knees = " followed by the
    decimal rendering of the sum of the left and right counters of the node
    as the call leaves it.  Drawing the total returns, leaves the node
    untouched and adds that one text. *)
Theorem total_display :
  (forall s f,
      snd (run s f) = Ok tt ->
      exists before,
        drawn (img (fst (run s f)))
        = before
          ++ [mkText (20, 30)
                ("high knees = "
                 ++ str_int (l_num_waves (self (fst (run s f)))
                             + r_num_waves (self (fst (run s f)))))%string
                YELLOW]) /\
  (forall w,
      snd (draw_total w) = Ok tt /\
      self (fst (draw_total w)) = self w /\
      drawn (img (fst (draw_total w)))
      = drawn (img w)
        ++ [mkText (20, 30)
              ("high knees = "
               ++ str_int (Spec.total (limb Left (self w))
                                      (limb Right (self w))))%string
              YELLOW]).
Proof.
  split.
  - exact run_drawn_total.
  - intros w. repeat split; reflexivity.
Qed.

Lemma total_display_witness :
  let s := fst (run_frames __init__
                  [Sample.right_leg Sample.knee_up;
                   Sample.right_leg Sample.knee_down;
                   Sample.left_leg Sample.knee_up]) in
  exists before,
    drawn (img (fst (run s (Sample.left_leg Sample.knee_down))))
    = before ++ [mkText (20, 30) "high knees = 2" YELLOW].
Proof.
  intros s.
  apply (proj1 total_display s (Sample.left_leg Sample.knee_down)).
  reflexivity.
Defined.

(** ** The coordinate mapper *)

Lemma trunc_mag_nonneg (m : positive) (e : Z) : 0 <= PyFloat.trunc_mag m e.
Proof.
  unfold PyFloat.trunc_mag. destruct (Z.leb_spec 0 e).
  - apply Z.mul_nonneg_nonneg; [lia | apply Z.pow_nonneg; lia].
  - apply Z.div_pos; [lia | apply Z.pow_pos_nonneg; lia].
Qed.


Lemma to_int_finite (f : float) :
  (PyFloat.is_finite f = true -> exists z, PyFloat.to_int f = Ok z) /\
  (PyFloat.is_finite f = false -> exists e, PyFloat.to_int f = Raise e).
Proof.
  destruct f; simpl; split; intros H; try discriminate H; eauto.
Qed.




(** ** Abscissas *)

Lemma available_y (f1 f2 : Inputs) (j : nat) :
  same_scores_and_y f1 f2 ->
  option_map snd (available f1 j) = option_map snd (available f2 j).
Proof.
  intros [Hs Hk]. unfold available, point, confidence. rewrite Hs.
  destruct (keypoints f1) as [|kps1 r1], (keypoints f2) as [|kps2 r2];
    simpl in Hk; try discriminate Hk; [reflexivity|].
  injection Hk as Hk _.
  apply (f_equal (fun l => nth_error l j)) in Hk.
  rewrite !nth_error_map in Hk. unfold keypoint in *.
  destruct (nth_error kps1 j) as [kp1|], (nth_error kps2 j) as [kp2|];
    simpl in Hk; try discriminate Hk; [|reflexivity].
  destruct (keypoint_scores f2) as [|sc r]; [reflexivity|].
  destruct (nth_error sc j) as [c|]; [|reflexivity].
  destruct (PyFloat.ge c THRESHOLD); [exact Hk | reflexivity].
Qed.

Lemma update_y (h k h' k' : keypoint) (st : Spec.LimbState) :
  snd h = snd h' -> snd k = snd k' ->
  Spec.update h k st = Spec.update h' k' st.
Proof.
  unfold Spec.update. intros -> ->. reflexivity.
Qed.

(** Two frames with the same confidences and ordinates either both leave
    a node alone or both step it, on keypoints with the same ordinates. *)
Lemma same_step (s : Node) (f1 f2 : Inputs) :
  same_scores_and_y f1 f2 ->
  snd (run s f1) = Ok tt ->
  snd (run s f2) = Ok tt ->
  (self (fst (run s f1)) = s /\ self (fst (run s f2)) = s) \/
  exists rk1 rh1 lk1 lh1 rk2 rh2 lk2 lh2,
    self (fst (run s f1)) = count_knees rk1 rh1 lk1 lh1 s /\
    self (fst (run s f2)) = count_knees rk2 rh2 lk2 lh2 s /\
    snd rk1 = snd rk2 /\ snd rh1 = snd rh2 /\
    snd lk1 = snd lk2 /\ snd lh1 = snd lh2.
Proof.
  intros Hsame R1 R2. rewrite !run_self, R1, R2.
  pose proof (available_y f1 f2 KP_LEFT_HIP Hsame) as H1.
  pose proof (available_y f1 f2 KP_RIGHT_HIP Hsame) as H2.
  pose proof (available_y f1 f2 KP_LEFT_KNEE Hsame) as H3.
  pose proof (available_y f1 f2 KP_RIGHT_KNEE Hsame) as H4.
  destruct (available f1 KP_LEFT_HIP) as [lh1|],
    (available f2 KP_LEFT_HIP) as [lh2|];
    simpl in H1; try discriminate H1; [|now left].
  destruct (available f1 KP_RIGHT_HIP) as [rh1|],
    (available f2 KP_RIGHT_HIP) as [rh2|];
    simpl in H2; try discriminate H2; [|now left].
  destruct (available f1 KP_LEFT_KNEE) as [lk1|],
    (available f2 KP_LEFT_KNEE) as [lk2|];
    simpl in H3; try discriminate H3; [|now left].
  destruct (available f1 KP_RIGHT_KNEE) as [rk1|],
    (available f2 KP_RIGHT_KNEE) as [rk2|];
    simpl in H4; try discriminate H4; [|now left].
  right. exists rk1, rh1, lk1, lh1, rk2, rh2, lk2, lh2.
  repeat split; congruence.
Qed.

(** C10 (as amended).  Two frames with the same confidences and the same
    ordinates, on both of which the call returns, take a node to the same
    last positions, transition counters and counters of repetitions on both
    legs, and put the same total on the frame last.  Besides the annotations
    of the keypoints, the abscissas can show in one place only: the knee
    rows that [self.right_knee] and [self.left_knee] take on the first
    counted frame, which the counting never reads.  Every other attribute of
    the node is the same after the two calls, and [self.right_knee] and
    [self.left_knee] are set after the one exactly when they are set after
    the other. *)
Theorem x_noninterference (s : Node) (f1 f2 : Inputs) :
  same_scores_and_y f1 f2 ->
  snd (run s f1) = Ok tt ->
  snd (run s f2) = Ok tt ->
  (forall sd,
      limb sd (self (fst (run s f1))) = limb sd (self (fst (run s f2)))) /\
  (exists before1 before2 total,
      drawn (img (fst (run s f1))) = before1 ++ [total_text total] /\
      drawn (img (fst (run s f2))) = before2 ++ [total_text total] /\
      total = l_num_waves (self (fst (run s f1)))
              + r_num_waves (self (fst (run s f1)))) /\
  right_wrist (self (fst (run s f1))) = right_wrist (self (fst (run s f2))) /\
  direction (self (fst (run s f1))) = direction (self (fst (run s f2))) /\
  (right_knee (self (fst (run s f1))) = None <->
   right_knee (self (fst (run s f2))) = None) /\
  (left_knee (self (fst (run s f1))) = None <->
   left_knee (self (fst (run s f2))) = None).
Proof.
  intros Hsame R1 R2.
  pose proof (same_step s f1 f2 Hsame R1 R2) as Hstep.
  assert (Hlimb : forall sd,
             limb sd (self (fst (run s f1)))
             = limb sd (self (fst (run s f2)))).
  { intros sd.
    destruct Hstep as [[-> ->] | (rk1 & rh1 & lk1 & lh1 & rk2 & rh2 & lk2 & lh2
                                  & -> & -> & Hrk & Hrh & Hlk & Hlh)];
      [reflexivity|].
    rewrite !count_knees_limb. destruct sd; now apply update_y. }
  split; [exact Hlimb|]. split.
  { destruct (run_drawn_total s f1 R1) as [b1 Hb1].
    destruct (run_drawn_total s f2 R2) as [b2 Hb2].
    exists b1, b2, (l_num_waves (self (fst (run s f1)))
                    + r_num_waves (self (fst (run s f1)))).
    split; [exact Hb1|]. split; [|reflexivity].
    rewrite Hb2.
    pose proof (Hlimb Left) as HL. pose proof (Hlimb Right) as HR.
    apply (f_equal Spec.repCount) in HL, HR. simpl in HL, HR.
    rewrite HL, HR. reflexivity. }
  destruct Hstep as [[-> ->] | (rk1 & rh1 & lk1 & lh1 & rk2 & rh2 & lk2 & lh2
                                & -> & -> & _)].
  { repeat split; auto. }
  destruct (count_knees_fields rk1 rh1 lk1 lh1 s) as (-> & -> & -> & ->).
  destruct (count_knees_fields rk2 rh2 lk2 lh2 s) as (-> & -> & -> & ->).
  split; [reflexivity|]. split; [reflexivity|].
  destruct (right_knee s), (left_knee s); repeat split; intros H;
    try discriminate H; reflexivity.
Qed.

Lemma x_noninterference_witness :
  limb Right (self (fst (run __init__ Sample.nose_left)))
  = limb Right (self (fst (run __init__ (Sample.right_leg Sample.knee_up)))) /\
  r_num_direction_changes (self (fst (run __init__ Sample.nose_left))) = 1.
Proof.
  split; [|reflexivity].
  apply (x_noninterference __init__ Sample.nose_left
           (Sample.right_leg Sample.knee_up)).
  - split; reflexivity.
  - reflexivity.
  - reflexivity.
Defined.

(** C10 (as stated) fails, twice over.  Two frames with the same
    confidences and the same ordinates, both legs in view and the right knee
    up: with the nose at abscissa 0.5 the call returns and records the
    transition of the right leg; with the nose at abscissa [1e308] the pixel
    conversion raises [OverflowError] before the counters are touched.  And
    where both calls return, the abscissa of the right knee shows in the
    node: [self.right_knee] takes the row of the frame, abscissa
    included. *)
Lemma abscissa_can_stop_the_count :
  same_scores_and_y Sample.nose_off_frame (Sample.right_leg Sample.knee_up) /\
  snd (run __init__ Sample.nose_off_frame) = Raise OverflowError /\
  r_num_direction_changes (self (fst (run __init__ Sample.nose_off_frame))) = 0
  /\
  r_num_direction_changes
    (self (fst (run __init__ (Sample.right_leg Sample.knee_up)))) = 1 /\
  ~ (forall s f1 f2,
        same_scores_and_y f1 f2 ->
        forall sd,
          limb sd (self (fst (run s f1))) = limb sd (self (fst (run s f2)))) /\
  same_scores_and_y (Sample.right_leg Sample.knee_up)
    (Sample.right_leg Sample.knee_up_left) /\
  snd (run __init__ (Sample.right_leg Sample.knee_up)) = Ok tt /\
  snd (run __init__ (Sample.right_leg Sample.knee_up_left)) = Ok tt /\
  right_knee (self (fst (run __init__ (Sample.right_leg Sample.knee_up))))
  <> right_knee
       (self (fst (run __init__ (Sample.right_leg Sample.knee_up_left)))).
Proof.
  split; [split; reflexivity|].
  split; [reflexivity|]. split; [reflexivity|]. split; [reflexivity|].
  split.
  { intros H.
    specialize (H __init__ Sample.nose_off_frame
                  (Sample.right_leg Sample.knee_up)
                  (conj eq_refl eq_refl) Right).
    vm_compute in H. discriminate H. }
  split; [split; reflexivity|].
  split; [reflexivity|]. split; [reflexivity|].
  vm_compute. discriminate.
Qed.

(** * Further properties of the code *)

(** ** The two coordinate helpers *)

(** X1.  The bounding-box helper is the keypoint helper applied to the
    corner (x1, y1) and then to the corner (x2, y2): same pixels, and the
    same exception when one of the conversions raises. *)
Theorem bbox_is_two_keypoints (x1 y1 x2 y2 : float) (image_size : Z * Z) :
  map_bbox_to_image_coords (x1, y1, x2, y2) image_size
  = result_bind (map_keypoint_to_image_coords (x1, y1) image_size)
      (fun p1 =>
         result_bind (map_keypoint_to_image_coords (x2, y2) image_size)
           (fun p2 => Ok (fst p1, snd p1, fst p2, snd p2))).
Proof.
  destruct image_size as [width height].
  unfold map_bbox_to_image_coords, map_keypoint_to_image_coords.
  destruct (PyFloat.of_int width) as [w|e]; [|reflexivity]. simpl.
  destruct (PyFloat.of_int height) as [h|e]; [|reflexivity]. simpl.
  destruct (PyFloat.to_int (PyFloat.mul x1 w)) as [ix1|e]; [|reflexivity].
  simpl.
  destruct (PyFloat.to_int (PyFloat.mul y1 h)) as [iy1|e]; [|reflexivity].
  simpl.
  destruct (PyFloat.to_int (PyFloat.mul x2 w)) as [ix2|e]; [|reflexivity].
  simpl.
  destruct (PyFloat.to_int (PyFloat.mul y2 h)) as [iy2|e]; reflexivity.
Qed.

(** The sign of a rounded result is the sign asked for. *)
Lemma binary_round_aux_sign (s : bool) (m e : Z) (l : location) :
  match binary_round_aux PyFloat.prec PyFloat.emax s m e l with
  | S754_zero s' | S754_infinity s' | S754_finite s' _ _ => s' = s
  | S754_nan => True
  end.
Proof.
  unfold binary_round_aux.
  destruct (shr_fexp PyFloat.prec PyFloat.emax m e l) as [mrs' e'].
  destruct (shr_fexp PyFloat.prec PyFloat.emax _ e' loc_Exact) as [mrs'' e''].
  destruct (shr_m mrs''); [reflexivity | | exact I].
  destruct (Z.leb e'' (PyFloat.emax - PyFloat.prec)); reflexivity.
Qed.

Lemma of_int_not_negative (z : Z) (f : float) :
  0 <= z -> PyFloat.of_int z = Ok f -> not_negative f.
Proof.
  intros Hz. unfold PyFloat.of_int, binary_normalize.
  destruct z as [|p|p]; [| |lia].
  - intros H. injection H as <-. exact I.
  - unfold binary_round.
    destruct (shl_align _ _ _) as [mz ez].
    pose proof (binary_round_aux_sign false (Z.pos mz) ez loc_Exact) as Hs.
    destruct (binary_round_aux _ _ false (Z.pos mz) ez loc_Exact);
      intros H; try discriminate H; injection H as <-; simpl; auto.
Qed.

Lemma ge_zero_not_negative (x : float) :
  PyFloat.ge x (S754_zero false) = true -> not_negative x.
Proof.
  unfold PyFloat.ge, SFleb. destruct x as [s|[]| |[] m e]; simpl;
    intros H; try discriminate H; auto.
Qed.

Lemma mul_not_negative (x w : float) (z : Z) :
  not_negative x -> not_negative w ->
  PyFloat.to_int (PyFloat.mul x w) = Ok z -> 0 <= z.
Proof.
  unfold PyFloat.mul.
  destruct x as [sx|sx| |sx mx ex], w as [sw|sw| |sw mw ew]; simpl;
    intros Hx Hw H; try contradiction; try discriminate H;
    try (injection H as <-; lia).
  subst sx sw. simpl in H.
  pose proof (binary_round_aux_sign false (Z.pos (mx * mw)) (ex + ew)
                loc_Exact) as Hs.
  destruct (binary_round_aux _ _ false (Z.pos (mx * mw)) (ex + ew) loc_Exact)
    as [s|s| |s m e]; simpl in H; try discriminate H; injection H as <-.
  - lia.
  - subst s. apply trunc_mag_nonneg.
Qed.

(** X2.  Relative coordinates that are [>= 0.0], on a frame of non-negative
    width and height, never map to negative pixel coordinates. *)
Theorem pixel_coords_not_negative (x y : float) (width height ix iy : Z) :
  0 <= width -> 0 <= height ->
  PyFloat.ge x (S754_zero false) = true ->
  PyFloat.ge y (S754_zero false) = true ->
  map_keypoint_to_image_coords (x, y) (width, height) = Ok (ix, iy) ->
  0 <= ix /\ 0 <= iy.
Proof.
  intros Hw Hh Hx Hy. unfold map_keypoint_to_image_coords.
  destruct (PyFloat.of_int width) as [w|e] eqn:Ew; [|discriminate]. simpl.
  destruct (PyFloat.of_int height) as [h|e] eqn:Eh; [|discriminate]. simpl.
  destruct (PyFloat.to_int (PyFloat.mul x w)) as [zx|e] eqn:Ex;
    [|discriminate]. simpl.
  destruct (PyFloat.to_int (PyFloat.mul y h)) as [zy|e] eqn:Ey;
    [|discriminate]. simpl.
  intros H. injection H as <- <-.
  split.
  - apply (mul_not_negative x w); auto using ge_zero_not_negative.
    now apply (of_int_not_negative width).
  - apply (mul_not_negative y h); auto using ge_zero_not_negative.
    now apply (of_int_not_negative height).
Qed.

Lemma pixel_coords_not_negative_witness :
  map_keypoint_to_image_coords (Sample.quarter, Sample.three) (640, 480)
  = Ok (160, 1440) /\ 0 <= 160 /\ 0 <= 1440.
Proof.
  split; [reflexivity|].
  apply (pixel_coords_not_negative Sample.quarter Sample.three 640 480);
    [lia | lia | reflexivity | reflexivity | reflexivity].
Defined.

(** ** When a call returns, and what it draws *)

Lemma loop_body_returns img_size sc i kp loc w :
  (exists loc', snd (loop_body img_size sc i kp loc w) = Ok loc') <->
  (exists c, nth_error sc i = Some c /\
     (PyFloat.ge c THRESHOLD = true ->
      exists p, map_keypoint_to_image_coords kp img_size = Ok p)).
Proof.
  unfold loop_body, index. unfold_monad.
  destruct (nth_error sc i) as [c|]; simpl.
  - destruct (PyFloat.ge c THRESHOLD) eqn:G.
    + destruct (map_keypoint_to_image_coords kp img_size) as [[x y]|e];
        simpl.
      * destruct (assign i kp loc). simpl. split; intros _; eauto.
      * split.
        -- intros [loc' H]. discriminate H.
        -- intros (c' & Hc & H). injection Hc as <-.
           destruct (H G) as [p Hp]. discriminate Hp.
    + simpl. split; intros _; [exists c|]; eauto.
      split; [reflexivity | congruence].
  - split.
    + intros [loc' H]. discriminate H.
    + intros (c & Hc & _). discriminate Hc.
Qed.

Lemma for_enumerate_returns img_size sc kps : forall i loc w,
  (exists loc', snd (for_enumerate img_size sc i kps loc w) = Ok loc') <->
  (forall j kp, nth_error kps j = Some kp ->
     exists c, nth_error sc (i + j) = Some c /\
       (PyFloat.ge c THRESHOLD = true ->
        exists p, map_keypoint_to_image_coords kp img_size = Ok p)).
Proof.
  induction kps as [|kp rest IH]; intros i loc w; simpl.
  - split; [|unfold ret; simpl; eauto].
    intros _ j kp H. destruct j; discriminate H.
  - unfold bind.
    pose proof (loop_body_returns img_size sc i kp loc w) as Hb.
    destruct (loop_body img_size sc i kp loc w) as [w1 [loc1|e]]; simpl in Hb.
    + rewrite IH. split.
      * intros H j kp' Hj. destruct j as [|j]; simpl in Hj.
        -- injection Hj as <-. rewrite Nat.add_0_r. apply Hb. eauto.
        -- rewrite Nat.add_succ_r. apply (H j kp' Hj).
      * intros H j kp' Hj. specialize (H (S j) kp' Hj).
        now rewrite Nat.add_succ_r in H.
    + split.
      * intros [loc' H]. discriminate H.
      * intros H. specialize (H 0%nat kp eq_refl).
        rewrite Nat.add_0_r in H. apply Hb in H as [loc' H]. discriminate H.
Qed.

(** X3.  A call returns only when there is nothing to look at
    ([keypoints] or [keypoint_scores] empty) or the first subject is
    convertible: every keypoint has a score, and every keypoint with a score
    of at least the threshold has pixel coordinates.  So a score list
    shorter than the keypoint list makes the call raise. *)
Theorem run_returns_only_if (s : Node) (f : Inputs) :
  (snd (run s f) = Ok tt ->
   keypoints f = [] \/ keypoint_scores f = [] \/ convertible f) /\
  (forall kps r1 sc r2,
      keypoints f = kps :: r1 -> keypoint_scores f = sc :: r2 ->
      (List.length sc < List.length kps)%nat ->
      exists e, snd (run s f) = Raise e).
Proof.
  assert (Honly : snd (run s f) = Ok tt ->
                  keypoints f = [] \/ keypoint_scores f = [] \/ convertible f).
  { rewrite run_eq. unfold convertible, point, confidence.
    destruct (keypoints f) as [|kps r1]; [auto|].
    destruct (keypoint_scores f) as [|sc r2]; [auto|].
    cbv zeta.
    set (sz := (snd (shape (in_img f)), fst (shape (in_img f)))).
    pose proof (for_enumerate_returns sz sc kps 0%nat no_locals
                  (mkWorld s (in_img f))) as H.
    simpl in H.
    destruct (for_enumerate sz sc 0 kps no_locals (mkWorld s (in_img f)))
      as [w1 [loc|e]]; simpl in H |- *; [|discriminate].
    intros _. right. right. apply H. eauto. }
  split; [exact Honly|].
  intros kps r1 sc r2 Hk Hs Hlen.
  assert (Hcases : snd (run s f) = Ok tt \/ exists e, snd (run s f) = Raise e)
    by (destruct (snd (run s f)) as [[]|e]; eauto).
  destruct Hcases as [E|E]; [|exact E].
  exfalso. apply Honly in E.
  destruct E as [E | [E | E]]; [congruence | congruence |].
  unfold convertible, point, confidence in E. rewrite Hk, Hs in E.
  destruct (nth_error kps (List.length sc)) as [kp|] eqn:Ekp.
  - destruct (E _ _ Ekp) as (c & Hc & _).
    assert (Hn : nth_error sc (List.length sc) <> None) by congruence.
    apply nth_error_Some in Hn. lia.
  - apply nth_error_None in Ekp. lia.
Qed.

Lemma run_returns_only_if_witness :
  (keypoints (Sample.right_leg Sample.knee_up) = [] \/
   keypoint_scores (Sample.right_leg Sample.knee_up) = [] \/
   convertible (Sample.right_leg Sample.knee_up)) /\
  exists e, snd (run __init__ Sample.scores_short) = Raise e.
Proof.
  split.
  - apply (proj1 (run_returns_only_if __init__
                    (Sample.right_leg Sample.knee_up))).
    reflexivity.
  - apply (proj2 (run_returns_only_if __init__ Sample.scores_short)
             [Sample.hip; Sample.hip; Sample.hip] [] [Sample.one] []);
      [reflexivity | reflexivity | simpl; lia].
Defined.

Lemma assign_color (i : nat) (kp : keypoint) (loc : Locals) :
  snd (assign i kp loc) = WHITE \/ snd (assign i kp loc) = YELLOW.
Proof.
  unfold assign.
  repeat match goal with
         | |- context [if ?b then _ else _] => destruct b
         end; simpl; auto.
Qed.

Lemma skipn_cons_nth {A} (l : list A) : forall i c,
  nth_error l i = Some c -> skipn i l = c :: skipn (S i) l.
Proof.
  induction l as [|a l IH]; intros [|i] c H; simpl in H; try discriminate H.
  - injection H as ->. reflexivity.
  - exact (IH i c H).
Qed.

Section Drawing.

Variable img_size : Z * Z.
Variable scores : list float.

(** One iteration puts at most one text on the frame: the annotation of the
    keypoint when its score reaches the threshold and its pixel coordinates
    exist. *)
Lemma loop_body_drawn i kp loc w :
  exists labels,
    drawn (img (fst (loop_body img_size scores i kp loc w)))
    = drawn (img w) ++ labels /\
    shape (img (fst (loop_body img_size scores i kp loc w))) = shape (img w) /\
    Forall well_labelled labels /\
    (forall loc',
        snd (loop_body img_size scores i kp loc w) = Ok loc' ->
        exists c, nth_error scores i = Some c /\
          List.length labels
          = if PyFloat.ge c THRESHOLD then 1%nat else 0%nat).
Proof.
  unfold loop_body, index. unfold_monad.
  destruct (nth_error scores i) as [c|]; simpl.
  2:{ exists []. rewrite app_nil_r. repeat split; auto. discriminate. }
  destruct (PyFloat.ge c THRESHOLD) eqn:G; simpl.
  2:{ exists []. rewrite app_nil_r. repeat split; auto.
      intros loc' _. exists c. now rewrite G. }
  destruct (map_keypoint_to_image_coords kp img_size) as [[x y]|e]; simpl.
  2:{ exists []. rewrite app_nil_r. repeat split; auto. discriminate. }
  pose proof (assign_color i kp loc) as Hc.
  destruct (assign i kp loc) as [loc1 col]. simpl in Hc |- *.
  eexists. split; [reflexivity|]. split; [reflexivity|]. split.
  - constructor; [|constructor]. split; [reflexivity | exact Hc].
  - intros loc' _. exists c. now rewrite G.
Qed.

Lemma for_enumerate_drawn kps : forall i loc w,
  exists labels,
    drawn (img (fst (for_enumerate img_size scores i kps loc w)))
    = drawn (img w) ++ labels /\
    shape (img (fst (for_enumerate img_size scores i kps loc w)))
    = shape (img w) /\
    Forall well_labelled labels /\
    (forall loc',
        snd (for_enumerate img_size scores i kps loc w) = Ok loc' ->
        List.length labels
        = List.length (filter (fun c => PyFloat.ge c THRESHOLD)
                         (firstn (List.length kps) (skipn i scores)))).
Proof.
  induction kps as [|kp rest IH]; intros i loc w; simpl.
  - exists []. rewrite app_nil_r. repeat split; auto.
  - unfold bind.
    destruct (loop_body_drawn i kp loc w) as (l1 & Hd1 & Hs1 & Hw1 & Hn1).
    destruct (loop_body img_size scores i kp loc w) as [w1 [loc1|e]];
      simpl in *.
    + destruct (IH (S i) loc1 w1) as (l2 & Hd2 & Hs2 & Hw2 & Hn2).
      exists (l1 ++ l2). rewrite Hd2, Hd1, Hs2, Hs1, app_assoc.
      split; [reflexivity|]. split; [reflexivity|].
      split; [apply Forall_app; auto|].
      intros loc' Hret. destruct (Hn1 loc1 eq_refl) as (c & Hc & Hl1).
      rewrite (skipn_cons_nth _ _ _ Hc). simpl.
      rewrite length_app, Hl1, (Hn2 loc' Hret).
      destruct (PyFloat.ge c THRESHOLD); reflexivity.
    + exists l1. repeat split; auto. discriminate.
Qed.

End Drawing.

(** X4.  A call that raises has not touched the node and has not drawn the
    total: the texts that were on the frame are still there, in order,
    followed only by annotations of keypoints, and the shape of the frame is
    unchanged. *)
Theorem failed_call_is_clean (s : Node) (f : Inputs) (e : exn) :
  snd (run s f) = Raise e ->
  self (fst (run s f)) = s /\
  shape (img (fst (run s f))) = shape (in_img f) /\
  exists labels,
    drawn (img (fst (run s f))) = drawn (in_img f) ++ labels /\
    Forall well_labelled labels.
Proof.
  intros H. split; [exact (run_raise_self s f e H)|].
  revert H. rewrite run_eq.
  destruct (keypoints f) as [|kps r1]; [discriminate|].
  destruct (keypoint_scores f) as [|sc r2]; [discriminate|].
  cbv zeta.
  set (sz := (snd (shape (in_img f)), fst (shape (in_img f)))).
  destruct (for_enumerate_drawn sz sc kps 0%nat no_locals
              (mkWorld s (in_img f))) as (labels & Hd & Hs & Hw & _).
  destruct (for_enumerate sz sc 0 kps no_locals (mkWorld s (in_img f)))
    as [w1 [loc|e1]]; [discriminate|].
  simpl in *. intros _. split; [exact Hs|]. exists labels. auto.
Qed.

Lemma failed_call_is_clean_witness :
  self (fst (run __init__ Sample.scores_short)) = __init__ /\
  shape (img (fst (run __init__ Sample.scores_short))) = (480, 640) /\
  exists labels,
    drawn (img (fst (run __init__ Sample.scores_short))) = [] ++ labels /\
    Forall well_labelled labels.
Proof.
  apply (failed_call_is_clean __init__ Sample.scores_short IndexError).
  reflexivity.
Defined.

(** X5.  A call that returns on a subject keeps the texts that were on the
    frame, adds one annotation for each keypoint whose score reaches the
    threshold, each showing the pixel position it is drawn at, and puts the
    total last; the shape of the frame is unchanged. *)
Theorem returned_call_annotations (s : Node) (f : Inputs)
    (kps : list keypoint) (r1 : list (list keypoint))
    (sc : list float) (r2 : list (list float)) :
  keypoints f = kps :: r1 ->
  keypoint_scores f = sc :: r2 ->
  snd (run s f) = Ok tt ->
  shape (img (fst (run s f))) = shape (in_img f) /\
  exists labels,
    drawn (img (fst (run s f)))
    = drawn (in_img f) ++ labels
      ++ [mkText (20, 30)
            ("high knees = "
             ++ str_int (l_num_waves (self (fst (run s f)))
                         + r_num_waves (self (fst (run s f)))))%string
            YELLOW] /\
    Forall well_labelled labels /\
    List.length labels = confident_count kps sc.
Proof.
  intros Hk Hs. rewrite run_eq, Hk, Hs. cbv zeta.
  set (sz := (snd (shape (in_img f)), fst (shape (in_img f)))).
  destruct (for_enumerate_drawn sz sc kps 0%nat no_locals
              (mkWorld s (in_img f))) as (labels & Hd & Hsh & Hw & Hn).
  destruct (for_enumerate sz sc 0 kps no_locals (mkWorld s (in_img f)))
    as [w1 [loc|e1]]; [|discriminate].
  simpl in *. intros _. split; [exact Hsh|].
  exists labels. rewrite Hd, <- app_assoc.
  split; [reflexivity|]. split; [exact Hw|]. exact (Hn loc eq_refl).
Qed.

Lemma returned_call_annotations_witness :
  exists labels,
    drawn (img (fst (run __init__ Sample.five_points)))
    = [] ++ labels ++ [mkText (20, 30) "high knees = 0" YELLOW] /\
    Forall well_labelled labels /\
    List.length labels = 3%nat.
Proof.
  apply (returned_call_annotations __init__ Sample.five_points
           [Sample.hip; Sample.knee_up; Sample.hip; Sample.knee_down;
            Sample.hip] []
           [Sample.one; Sample.quarter; Sample.one; Sample.zero; Sample.half]
           []); reflexivity.
Defined.

(** X6.  A subject given with fewer than fifteen keypoints is never
    counted: whatever the scores and coordinates, the node stays as it
    was. *)
Theorem short_pose_not_counted (s : Node) (f : Inputs)
    (kps : list keypoint) (r1 : list (list keypoint)) :
  keypoints f = kps :: r1 ->
  (List.length kps < 15)%nat ->
  self (fst (run s f)) = s.
Proof.
  intros Hk Hlen. apply run_unavailable.
  unfold all_available.
  assert (H : available f KP_RIGHT_KNEE = None).
  { unfold available, point. rewrite Hk.
    replace (nth_error kps KP_RIGHT_KNEE) with (@None keypoint);
      [reflexivity|].
    symmetry. apply nth_error_None. unfold KP_RIGHT_KNEE. lia. }
  rewrite H.
  destruct (available f KP_LEFT_HIP), (available f KP_RIGHT_HIP),
    (available f KP_LEFT_KNEE); reflexivity.
Qed.

Lemma short_pose_not_counted_witness :
  self (fst (run __init__ Sample.five_points)) = __init__.
Proof.
  apply (short_pose_not_counted __init__ Sample.five_points
           [Sample.hip; Sample.knee_up; Sample.hip; Sample.knee_down;
            Sample.hip] []); [reflexivity | simpl; lia].
Defined.

(** ** The two legs as operations on the node *)

(** A node is its four stored attributes and its two legs. *)
Lemma node_ext (a b : Node) :
  right_wrist a = right_wrist b -> direction a = direction b ->
  right_knee a = right_knee b -> left_knee a = left_knee b ->
  limb Left a = limb Left b -> limb Right a = limb Right b ->
  a = b.
Proof.
  destruct a, b. simpl. intros -> -> -> -> HL HR.
  injection HL as -> -> ->. injection HR as -> -> ->. reflexivity.
Qed.

(** The limb state machine settles at once on a repeated input. *)
Lemma update_twice (hip knee : keypoint) (st : Spec.LimbState) :
  Spec.update hip knee (Spec.update hip knee st) = Spec.update hip knee st.
Proof.
  destruct st as [p0 t r]. unfold Spec.update.
  generalize (if PyFloat.lt (snd knee) (snd hip) then "up" else "down")%string.
  intros p. simpl.
  destruct (String.eqb p p0); simpl;
    [destruct (2 <=? t) eqn:E | destruct (2 <=? t + 1) eqn:E];
    simpl; rewrite String.eqb_refl; simpl; rewrite ?E; reflexivity.
Qed.

(** X7.  The updates of the two legs commute: each one reads and writes
    only the attributes of its own leg. *)
Theorem leg_updates_commute (rk rh lk lh : keypoint) (s : Node) :
  update_left lk lh (update_right rk rh s)
  = update_right rk rh (update_left lk lh s).
Proof.
  destruct (update_left_fields lk lh (update_right rk rh s))
    as (A1 & A2 & A3 & A4).
  destruct (update_right_fields rk rh (update_left lk lh s))
    as (B1 & B2 & B3 & B4).
  destruct (update_right_fields rk rh s) as (C1 & C2 & C3 & C4).
  destruct (update_left_fields lk lh s) as (D1 & D2 & D3 & D4).
  destruct (update_left_limb lk lh (update_right rk rh s)) as [EL ER].
  destruct (update_right_limb rk rh (update_left lk lh s)) as [FR FL].
  destruct (update_right_limb rk rh s) as [GR GL].
  destruct (update_left_limb lk lh s) as [HL HR].
  apply node_ext; congruence.
Qed.

(** X8.  The counting step treats the two legs alike: exchanging the legs
    of the node and of the pose gives the exchanged result. *)
Theorem count_knees_mirror (rk rh lk lh : keypoint) (s : Node) :
  count_knees lk lh rk rh (mirror s) = mirror (count_knees rk rh lk lh s).
Proof.
  destruct (count_knees_fields lk lh rk rh (mirror s)) as (A1 & A2 & A3 & A4).
  destruct (count_knees_fields rk rh lk lh s) as (B1 & B2 & B3 & B4).
  pose proof (count_knees_limb Left lk lh rk rh (mirror s)) as CL.
  pose proof (count_knees_limb Right lk lh rk rh (mirror s)) as CR.
  pose proof (count_knees_limb Left rk rh lk lh s) as DL.
  pose proof (count_knees_limb Right rk rh lk lh s) as DR.
  change (right_wrist (mirror s)) with (right_wrist s) in A1.
  change (direction (mirror s)) with (direction s) in A2.
  change (right_knee (mirror s)) with (left_knee s) in A3.
  change (left_knee (mirror s)) with (right_knee s) in A4.
  apply node_ext.
  - change (right_wrist (mirror (count_knees rk rh lk lh s)))
      with (right_wrist (count_knees rk rh lk lh s)). congruence.
  - change (direction (mirror (count_knees rk rh lk lh s)))
      with (direction (count_knees rk rh lk lh s)). congruence.
  - change (right_knee (mirror (count_knees rk rh lk lh s)))
      with (left_knee (count_knees rk rh lk lh s)). congruence.
  - change (left_knee (mirror (count_knees rk rh lk lh s)))
      with (right_knee (count_knees rk rh lk lh s)). congruence.
  - rewrite CL. change (limb Left (mirror (count_knees rk rh lk lh s)))
      with (limb Right (count_knees rk rh lk lh s)).
    rewrite DR. reflexivity.
  - rewrite CR. change (limb Right (mirror (count_knees rk rh lk lh s)))
      with (limb Left (count_knees rk rh lk lh s)).
    rewrite DL. reflexivity.
Qed.

Lemma count_knees_twice (rk rh lk lh : keypoint) (s : Node) :
  count_knees rk rh lk lh (count_knees rk rh lk lh s)
  = count_knees rk rh lk lh s.
Proof.
  destruct (count_knees_fields rk rh lk lh (count_knees rk rh lk lh s))
    as (A1 & A2 & A3 & A4).
  destruct (count_knees_fields rk rh lk lh s) as (B1 & B2 & B3 & B4).
  apply node_ext.
  - exact A1.
  - exact A2.
  - rewrite A3, B3. destruct (right_knee s); reflexivity.
  - rewrite A4, B4. destruct (left_knee s); reflexivity.
  - rewrite !(count_knees_limb Left). apply update_twice.
  - rewrite !(count_knees_limb Right). apply update_twice.
Qed.

(** X9.  A frame shown twice counts once: calling [run] again on the same
    frame leaves the node as the first call left it. *)
Theorem same_frame_twice (s : Node) (f : Inputs) :
  self (fst (run (self (fst (run s f))) f)) = self (fst (run s f)).
Proof.
  rewrite (run_self (self (fst (run s f))) f).
  rewrite (run_returns_any_node (self (fst (run s f))) s f).
  destruct (snd (run s f)) as [[]|e] eqn:E; [|reflexivity].
  destruct (available f KP_LEFT_HIP) as [lh|] eqn:H1; [|reflexivity].
  destruct (available f KP_RIGHT_HIP) as [rh|] eqn:H2; [|reflexivity].
  destruct (available f KP_LEFT_KNEE) as [lk|] eqn:H3; [|reflexivity].
  destruct (available f KP_RIGHT_KNEE) as [rk|] eqn:H4; [|reflexivity].
  rewrite run_self, E, H1, H2, H3, H4.
  apply count_knees_twice.
Qed.

(** ** The rhythm of the counters *)

Lemma update_in_phase (hip knee : keypoint) (st : Spec.LimbState) :
  in_phase st -> in_phase (Spec.update hip knee st).
Proof.
  destruct st as [p t r]. unfold in_phase. simpl.
  intros [[-> ->] | [-> ->]].
  - rewrite update_from_rest.
    destruct (PyFloat.lt (snd knee) (snd hip)); simpl; auto.
  - rewrite update_from_raised.
    destruct (PyFloat.lt (snd knee) (snd hip)); simpl; auto.
Qed.

Lemma run_in_phase (sd : side) (s : Node) (f : Inputs) :
  in_phase (limb sd s) -> in_phase (limb sd (self (fst (run s f)))).
Proof.
  intros H.
  destruct (run_limb_cases sd s f) as [-> | (hip & knee & ->)];
    [exact H | now apply update_in_phase].
Qed.

Lemma run_frames_in_phase (sd : side) (frames : list Inputs) :
  forall s, in_phase (limb sd s) ->
            in_phase (limb sd (fst (run_frames s frames))).
Proof.
  induction frames as [|f rest IH]; intros s Hs; simpl; [exact Hs|].
  pose proof (run_in_phase sd s f Hs) as H.
  destruct (run s f) as [w [[]|e]]; simpl in *; [|exact H].
  apply IH, H.
Qed.

(** X10.  However the frames come, each leg of a node that started fresh
    is in one of two states: last position "down" with no pending
    transition, or last position "up" with exactly one. *)
Theorem legs_in_phase (frames : list Inputs) (sd : side) :
  in_phase (limb sd (fst (run_frames __init__ frames))).
Proof.
  apply run_frames_in_phase. destruct sd; left; split; reflexivity.
Qed.

Lemma position_cases (knee hip : keypoint) :
  position knee hip = "up"%string \/ position knee hip = "down"%string.
Proof.
  unfold position. destruct (PyFloat.lt (snd knee) (snd hip)); auto.
Qed.

(** X11.  On a node that started fresh, a repetition is counted exactly on
    the counted frames where a leg that was up comes down: the counter of
    the leg grows by one then, and stays on every other counted frame. *)
Theorem counted_on_coming_down (frames : list Inputs) (f : Inputs)
    (sd : side) (hip knee : keypoint) :
  let s := fst (run_frames __init__ frames) in
  update_runs s f ->
  available f (hip_index sd) = Some hip ->
  available f (knee_index sd) = Some knee ->
  (Spec.lastPosition (limb sd s) = "up"%string ->
   position knee hip = "down"%string ->
   Spec.repCount (limb sd (self (fst (run s f))))
   = Spec.repCount (limb sd s) + 1) /\
  (Spec.lastPosition (limb sd s) = "down"%string \/
   position knee hip = "up"%string ->
   Spec.repCount (limb sd (self (fst (run s f))))
   = Spec.repCount (limb sd s)).
Proof.
  intros s Hrun Hh Hk.
  rewrite (run_limb_step sd s f hip knee Hrun Hh Hk).
  assert (Hph : in_phase (limb sd s))
    by (apply run_frames_in_phase; destruct sd; left; split; reflexivity).
  destruct (limb sd s) as [p t r]. unfold in_phase in Hph. simpl in *.
  unfold position.
  destruct Hph as [[-> ->] | [-> ->]].
  - rewrite update_from_rest.
    destruct (PyFloat.lt (snd knee) (snd hip)); simpl; split;
      intros; try discriminate; reflexivity.
  - rewrite update_from_raised.
    destruct (PyFloat.lt (snd knee) (snd hip)); simpl; split;
      intros H; try discriminate; try reflexivity.
    destruct H as [H | H]; discriminate H.
Qed.

Lemma counted_on_coming_down_witness :
  let s := fst (run_frames __init__ [Sample.right_leg Sample.knee_up]) in
  r_num_waves (self (fst (run s (Sample.right_leg Sample.knee_down))))
  = r_num_waves s + 1 /\
  r_num_waves (self (fst (run s (Sample.right_leg Sample.knee_up))))
  = r_num_waves s.
Proof.
  intros s. split.
  - apply (counted_on_coming_down [Sample.right_leg Sample.knee_up]
             (Sample.right_leg Sample.knee_down) Right
             Sample.hip Sample.knee_down);
      try reflexivity; split; reflexivity.
  - apply (counted_on_coming_down [Sample.right_leg Sample.knee_up]
             (Sample.right_leg Sample.knee_up) Right
             Sample.hip Sample.knee_up);
      try reflexivity; try (split; reflexivity).
    right. reflexivity.
Defined.

Lemma update_measure (hip knee : keypoint) (st : Spec.LimbState) :
  2 * Spec.repCount (Spec.update hip knee st)
  + Spec.transitionCount (Spec.update hip knee st)
  <= 2 * Spec.repCount st + Spec.transitionCount st + 1.
Proof.
  destruct (update_rep_count hip knee st) as [H2 H1]. cbv zeta in *.
  destruct (String.eqb _ (Spec.lastPosition st)); cbv iota in H1, H2;
    match type of H2 with 2 <= ?a -> _ => destruct (Z.le_gt_cases 2 a) end;
    try (destruct (H2 ltac:(assumption)) as [-> ->]; lia);
    destruct (H1 ltac:(lia)) as [-> ->]; lia.
Qed.

Lemma run_frames_measure (sd : side) (frames : list Inputs) :
  forall s,
    2 * Spec.repCount (limb sd (fst (run_frames s frames)))
    + Spec.transitionCount (limb sd (fst (run_frames s frames)))
    <= 2 * Spec.repCount (limb sd s) + Spec.transitionCount (limb sd s)
       + Z.of_nat (List.length frames).
Proof.
  induction frames as [|f rest IH]; intros s.
  - simpl. lia.
  - assert (H : 2 * Spec.repCount (limb sd (self (fst (run s f))))
                + Spec.transitionCount (limb sd (self (fst (run s f))))
                <= 2 * Spec.repCount (limb sd s)
                   + Spec.transitionCount (limb sd s) + 1).
    { destruct (run_limb_cases sd s f) as [-> | (hip & knee & ->)];
        [lia | apply update_measure]. }
    cbn [run_frames List.length].
    destruct (run s f) as [w [[]|e]]; cbn [fst snd self] in *.
    + specialize (IH (self w)). lia.
    + lia.
Qed.

(** X12.  A repetition takes at least two frames: after any stream of
    frames on a fresh node, twice the counter of a leg is at most the number
    of frames, and the displayed sum of the two counters is at most the
    number of frames. *)
Theorem two_frames_per_rep (frames : list Inputs) :
  let s := fst (run_frames __init__ frames) in
  2 * l_num_waves s <= Z.of_nat (List.length frames) /\
  2 * r_num_waves s <= Z.of_nat (List.length frames) /\
  l_num_waves s + r_num_waves s <= Z.of_nat (List.length frames).
Proof.
  intros s.
  pose proof (run_frames_measure Left frames __init__) as HL.
  pose proof (run_frames_measure Right frames __init__) as HR.
  assert (Hlow : counters_low s)
    by (apply run_frames_counters_low; split; left; reflexivity).
  fold s in HL, HR. clearbody s.
  destruct s, Hlow as [Hr Hl].
  unfold limb, __init__ in HL, HR.
  cbn [Spec.repCount Spec.transitionCount l_num_waves r_num_waves
       l_num_direction_changes r_num_direction_changes] in *.
  lia.
Qed.

(** ** What is stored on the side *)

Lemma run_frames_fields (frames : list Inputs) :
  forall s,
    right_wrist (fst (run_frames s frames)) = right_wrist s /\
    direction (fst (run_frames s frames)) = direction s.
Proof.
  induction frames as [|f rest IH]; intros s; simpl; [auto|].
  assert (H : right_wrist (self (fst (run s f))) = right_wrist s /\
              direction (self (fst (run s f))) = direction s).
  { destruct (run_self_cases s f) as [-> | (rk & rh & lk & lh & ->)]; [auto|].
    destruct (count_knees_fields rk rh lk lh s) as (-> & -> & _). auto. }
  destruct (run s f) as [w [[]|e]]; simpl in *; [|exact H].
  destruct (IH (self w)) as [-> ->]. exact H.
Qed.

Lemma run_knee_slots (s : Node) (f : Inputs) :
  (right_knee s = None <-> left_knee s = None) ->
  (right_knee (self (fst (run s f))) = None <->
   left_knee (self (fst (run s f))) = None).
Proof.
  intros H.
  destruct (run_self_cases s f) as [-> | (rk & rh & lk & lh & ->)];
    [exact H|].
  destruct (count_knees_fields rk rh lk lh s) as (_ & _ & -> & ->).
  destruct (right_knee s), (left_knee s); split; intros E;
    try discriminate E; try reflexivity.
Qed.

Lemma run_frames_knee_slots (frames : list Inputs) :
  forall s,
    (right_knee s = None <-> left_knee s = None) ->
    (right_knee (fst (run_frames s frames)) = None <->
     left_knee (fst (run_frames s frames)) = None).
Proof.
  induction frames as [|f rest IH]; intros s Hs; simpl; [exact Hs|].
  pose proof (run_knee_slots s f Hs) as H.
  destruct (run s f) as [w [[]|e]]; simpl in *; [|exact H].
  apply IH, H.
Qed.

(** X13.  The two knee slots fill together and for good: a counted frame
    leaves [right_knee] and [left_knee] both set, no call empties a slot
    that is set, and on a node that started fresh the one is [None] exactly
    when the other is; [right_wrist] and [direction] stay [None]. *)
Theorem knee_slots_fill_together (s : Node) (f : Inputs) :
  (update_runs s f ->
   right_knee (self (fst (run s f))) <> None /\
   left_knee (self (fst (run s f))) <> None) /\
  (right_knee s <> None -> right_knee (self (fst (run s f))) <> None) /\
  (left_knee s <> None -> left_knee (self (fst (run s f))) <> None) /\
  (forall frames,
      (right_knee (fst (run_frames __init__ frames)) = None <->
       left_knee (fst (run_frames __init__ frames)) = None) /\
      right_wrist (fst (run_frames __init__ frames)) = None /\
      direction (fst (run_frames __init__ frames)) = None).
Proof.
  split; [|split; [|split]].
  - intros [Hret Hall].
    destruct (all_available_inv f Hall)
      as (lh & rh & lk & rk & H1 & H2 & H3 & H4).
    rewrite run_self, Hret, H1, H2, H3, H4.
    destruct (count_knees_fields rk rh lk lh s) as (_ & _ & -> & ->).
    destruct (right_knee s), (left_knee s); split; discriminate.
  - intros Hk.
    destruct (run_self_cases s f) as [-> | (rk & rh & lk & lh & ->)];
      [exact Hk|].
    destruct (count_knees_fields rk rh lk lh s) as (_ & _ & -> & _).
    destruct (right_knee s); [discriminate | contradiction].
  - intros Hk.
    destruct (run_self_cases s f) as [-> | (rk & rh & lk & lh & ->)];
      [exact Hk|].
    destruct (count_knees_fields rk rh lk lh s) as (_ & _ & _ & ->).
    destruct (left_knee s); [discriminate | contradiction].
  - intros frames. split.
    + apply run_frames_knee_slots. split; reflexivity.
    + apply (run_frames_fields frames __init__).
Qed.

Lemma knee_slots_fill_together_witness :
  right_knee (self (fst (run __init__ (Sample.right_leg Sample.knee_up))))
  <> None /\
  left_knee (self (fst (run __init__ (Sample.right_leg Sample.knee_up))))
  <> None.
Proof.
  apply (proj1 (knee_slots_fill_together __init__
                  (Sample.right_leg Sample.knee_up))).
  split; reflexivity.
Defined.

(** ** Ties, NaNs and what the frame is read for *)

Lemma lt_irrefl (a : float) : PyFloat.lt a a = false.
Proof.
  unfold PyFloat.lt, SFltb.
  destruct a as [s|[]| |[] m e]; simpl; try reflexivity;
    rewrite Z.compare_refl;
    change (Pos.compare_cont Eq m m) with (Pos.compare m m);
    rewrite Pos.compare_refl; reflexivity.
Qed.

Lemma update_last_position (hip knee : keypoint) (st : Spec.LimbState) :
  Spec.lastPosition (Spec.update hip knee st) = position knee hip.
Proof.
  unfold Spec.update, position.
  match goal with |- context [2 <=? ?a] => destruct (2 <=? a) end;
    reflexivity.
Qed.

(** X14.  On a counted frame the last position of a leg becomes "up"
    exactly when the knee ordinate is strictly smaller than the hip
    ordinate; a knee level with the hip reads "down". *)
Theorem level_knee_reads_down (sd : side) (s : Node) (f : Inputs)
    (hip knee : keypoint) :
  update_runs s f ->
  available f (hip_index sd) = Some hip ->
  available f (knee_index sd) = Some knee ->
  (Spec.lastPosition (limb sd (self (fst (run s f)))) = "up"%string <->
   PyFloat.lt (snd knee) (snd hip) = true) /\
  (snd knee = snd hip ->
   Spec.lastPosition (limb sd (self (fst (run s f)))) = "down"%string).
Proof.
  intros Hrun Hh Hk.
  rewrite (run_limb_step sd s f hip knee Hrun Hh Hk), update_last_position.
  unfold position. split.
  - destruct (PyFloat.lt (snd knee) (snd hip)); split; intros H;
      try reflexivity; discriminate H.
  - intros ->. now rewrite lt_irrefl.
Qed.

Lemma level_knee_reads_down_witness :
  let s := self (fst (run __init__ (Sample.right_leg Sample.knee_up))) in
  r_up s = "up"%string /\
  r_up (self (fst (run s (Sample.right_leg Sample.hip)))) = "down"%string /\
  r_num_waves (self (fst (run s (Sample.right_leg Sample.hip)))) = 1.
Proof.
  intros s. split; [reflexivity|]. split; [|reflexivity].
  apply (proj2 (level_knee_reads_down Right s
                  (Sample.right_leg Sample.hip) Sample.hip Sample.hip
                  (conj eq_refl eq_refl) eq_refl eq_refl)).
  reflexivity.
Defined.

Lemma mul_finite_l (x w : float) :
  PyFloat.is_finite (PyFloat.mul x w) = true -> PyFloat.is_finite x = true.
Proof.
  destruct x as [sx|sx| |sx mx ex], w as [sw|sw| |sw mw ew]; simpl;
    intros H; try discriminate H; reflexivity.
Qed.

Lemma mapper_ok_finite (kp : keypoint) (image_size p : Z * Z) :
  map_keypoint_to_image_coords kp image_size = Ok p ->
  PyFloat.is_finite (fst kp) = true /\ PyFloat.is_finite (snd kp) = true.
Proof.
  destruct kp as [x y], image_size as [width height].
  unfold map_keypoint_to_image_coords.
  destruct (PyFloat.of_int width) as [w|e]; [|discriminate]. simpl.
  destruct (PyFloat.of_int height) as [h|e]; [|discriminate]. simpl.
  destruct (PyFloat.to_int (PyFloat.mul x w)) as [ix|e] eqn:Ex;
    [|discriminate]. simpl.
  destruct (PyFloat.to_int (PyFloat.mul y h)) as [iy|e] eqn:Ey;
    [|discriminate]. intros _.
  split; [apply (mul_finite_l x w) | apply (mul_finite_l y h)].
  - destruct (PyFloat.is_finite (PyFloat.mul x w)) eqn:F; [reflexivity|].
    destruct (proj2 (to_int_finite _) F) as [e He]. congruence.
  - destruct (PyFloat.is_finite (PyFloat.mul y h)) eqn:F; [reflexivity|].
    destruct (proj2 (to_int_finite _) F) as [e He]. congruence.
Qed.

(** X17.  No NaN and no infinity reaches the counters: when a call
    returns, every keypoint of the first subject whose score reaches the
    threshold, and so every hip and knee the counting step compares, has
    finite coordinates.  A NaN or infinite coordinate with such a score
    makes the call raise instead. *)
Theorem counted_coordinates_finite (s : Node) (f : Inputs) (i : nat)
    (kp : keypoint) :
  snd (run s f) = Ok tt ->
  available f i = Some kp ->
  PyFloat.is_finite (fst kp) = true /\ PyFloat.is_finite (snd kp) = true.
Proof.
  intros Hret Hav.
  assert (Hp : point f i = Some kp /\
               exists c, confidence f i = Some c /\
                         PyFloat.ge c THRESHOLD = true).
  { unfold available in Hav.
    destruct (point f i) as [kp'|]; [|discriminate].
    destruct (confidence f i) as [c|]; [|discriminate].
    destruct (PyFloat.ge c THRESHOLD) eqn:G; [|discriminate].
    injection Hav as ->. eauto. }
  destruct Hp as (Hpt & c & Hc & Hge).
  assert (Hconv : convertible f).
  { revert Hret. rewrite run_eq. unfold convertible, point, confidence.
    unfold point in Hpt. unfold confidence in Hc.
    destruct (keypoints f) as [|kps r1]; [discriminate Hpt|].
    destruct (keypoint_scores f) as [|sc r2]; [discriminate Hc|].
    cbv zeta.
    set (sz := (snd (shape (in_img f)), fst (shape (in_img f)))).
    pose proof (for_enumerate_returns sz sc kps 0%nat no_locals
                  (mkWorld s (in_img f))) as H.
    simpl in H.
    destruct (for_enumerate sz sc 0 kps no_locals (mkWorld s (in_img f)))
      as [w1 [loc|e]]; simpl in H; [|discriminate].
    intros _. apply H. eauto. }
  destruct (Hconv i kp Hpt) as (c' & Hc' & Hmap).
  assert (c' = c) by congruence. subst c'.
  destruct (Hmap Hge) as [p Hp].
  exact (mapper_ok_finite _ _ _ Hp).
Qed.

Lemma counted_coordinates_finite_witness :
  PyFloat.is_finite (snd Sample.knee_up) = true /\
  exists e, snd (run __init__ (Sample.right_leg Sample.knee_nan)) = Raise e.
Proof.
  split.
  - apply (counted_coordinates_finite __init__
             (Sample.right_leg Sample.knee_up) KP_RIGHT_KNEE Sample.knee_up);
      reflexivity.
  - exists ValueError. reflexivity.
Defined.

Lemma str_int_inj (a b : Z) : str_int a = str_int b -> a = b.
Proof.
  unfold str_int. intros H.
  assert (Hn : forall z, Z.to_int z <> Decimal.Pos Decimal.Nil /\
                         Z.to_int z <> Decimal.Neg Decimal.Nil).
  { intros [|p|p]; simpl; split; try discriminate;
      intros E; injection E as E;
      exact (DecimalPos.Unsigned.to_uint_nonnil p E). }
  apply DecimalZ.to_int_inj.
  assert (E : Some (Z.to_int a) = Some (Z.to_int b)).
  { rewrite <- (NilZero.isi (Z.to_int a)) by apply Hn.
    rewrite <- (NilZero.isi (Z.to_int b)) by apply Hn.
    now rewrite H. }
  now injection E.
Qed.

(** X15.  The text of the total tells the total: two nodes are shown with
    the same text only when the sums of their counters are equal. *)
Theorem total_text_tells_total (s1 s2 : Node) :
  wave_str s1 = wave_str s2 ->
  l_num_waves s1 + r_num_waves s1 = l_num_waves s2 + r_num_waves s2.
Proof.
  unfold wave_str. intros H. simpl in H.
  injection H as H. now apply str_int_inj.
Qed.

Lemma total_text_tells_total_witness :
  let s1 := fst (run_frames __init__
                   [Sample.right_leg Sample.knee_up;
                    Sample.right_leg Sample.knee_down]) in
  let s2 := fst (run_frames __init__
                   [Sample.left_leg Sample.knee_up;
                    Sample.left_leg Sample.knee_down]) in
  l_num_waves s1 + r_num_waves s1 = l_num_waves s2 + r_num_waves s2.
Proof.
  intros s1 s2. apply (total_text_tells_total s1 s2). reflexivity.
Defined.

Lemma for_enumerate_scores img_size kps : forall sc sc' i loc w,
  (forall j, (j < List.length kps)%nat ->
             nth_error sc (i + j) = nth_error sc' (i + j)) ->
  for_enumerate img_size sc i kps loc w
  = for_enumerate img_size sc' i kps loc w.
Proof.
  induction kps as [|kp rest IH]; intros sc sc' i loc w H; simpl;
    [reflexivity|].
  unfold bind.
  assert (Hb : loop_body img_size sc i kp loc w
               = loop_body img_size sc' i kp loc w).
  { unfold loop_body, index.
    specialize (H 0%nat ltac:(simpl; lia)). rewrite Nat.add_0_r in H.
    now rewrite H. }
  rewrite Hb.
  destruct (loop_body img_size sc' i kp loc w) as [w1 [loc1|e]];
    [|reflexivity].
  apply IH. intros j Hj. specialize (H (S j) ltac:(simpl; lia)).
  now rewrite Nat.add_succ_r in H.
Qed.

(** X16.  Only the first subject is read, and of its scores only as many
    as it has keypoints: two frames with the same image, the same first
    list of keypoints and first lists of scores that agree that far give the
    same call, whatever the other subjects and the surplus scores are. *)
Theorem only_first_subject (s : Node) (f f' : Inputs)
    (kps : list keypoint) (r1 r1' : list (list keypoint))
    (sc sc' : list float) (r2 r2' : list (list float)) :
  in_img f = in_img f' ->
  keypoints f = kps :: r1 -> keypoints f' = kps :: r1' ->
  keypoint_scores f = sc :: r2 -> keypoint_scores f' = sc' :: r2' ->
  firstn (List.length kps) sc = firstn (List.length kps) sc' ->
  run s f = run s f'.
Proof.
  intros Hi Hk Hk' Hs Hs' Hf.
  rewrite !run_eq, Hk, Hk', Hs, Hs', <- Hi. cbv zeta.
  rewrite (for_enumerate_scores _ kps sc sc'); [reflexivity|].
  intros j Hj. simpl.
  pose proof (nth_error_firstn (List.length kps) sc j) as E.
  pose proof (nth_error_firstn (List.length kps) sc' j) as E'.
  apply Nat.ltb_lt in Hj. rewrite Hj in E, E'.
  rewrite <- E, <- E', Hf. reflexivity.
Qed.

Lemma only_first_subject_witness :
  run __init__ Sample.five_points_crowded = run __init__ Sample.five_points.
Proof.
  apply (only_first_subject __init__
           Sample.five_points_crowded Sample.five_points
           [Sample.hip; Sample.knee_up; Sample.hip; Sample.knee_down;
            Sample.hip]
           [[Sample.knee_nan; Sample.hip]] []
           [Sample.one; Sample.quarter; Sample.one; Sample.zero; Sample.half;
            Sample.nan; Sample.one]
           [Sample.one; Sample.quarter; Sample.one; Sample.zero; Sample.half]
           [[Sample.zero]] []); reflexivity.
Defined.
